(** * Web-Scrapping-WB: the profile extraction engine

    A shallow embedding of [wb_scraping/scraper.py], [wb_scraping/main.py]
    and [wb_scraping/data_processing.py].

    The browser is an external collaborator.  Every query the code makes of
    it (a locator count, an inner text, an attribute, a bounded wait) is
    modelled by the answer the page gives, so an extractor becomes a
    function from the observed page to its result.  Python exceptions are
    carried by the error monad [result]. *)

From Stdlib Require Import ZArith List String Ascii Bool Lia Floats Uint63.
Import ListNotations.

Open Scope string_scope.
Open Scope list_scope.
Open Scope Z_scope.

(** ** Exceptions *)

(** Every exception below derives from Python's [Exception], so an
    [except Exception] clause catches each of them. *)
Inductive exn : Type :=
| TimeoutError      (* playwright: an action or a wait ran out of time *)
| AssertionError    (* playwright [expect(...)] failed *)
| PlaywrightError   (* any other driver error, e.g. a strict-mode violation *)
| AttributeError
| KeyError
| TypeError
| ValueError.

Inductive result (A : Type) : Type :=
| Ok (a : A)
| Raise (e : exn).

Arguments Ok {A} a.
Arguments Raise {A} e.

Definition bind {A B : Type} (r : result A) (k : A -> result B) : result B :=
  match r with
  | Ok a => k a
  | Raise e => Raise e
  end.

Notation "x <- r ;; k" := (bind r (fun x => k))
  (at level 61, r at next level, right associativity).
Notation "r ;;; k" := (bind r (fun _ => k))
  (at level 61, right associativity).

(** [expect(locator).to_be_visible(...)] and friends: the wait either holds
    within its timeout or raises [AssertionError]. *)
Definition expect (holds : bool) : result unit :=
  if holds then Ok tt else Raise AssertionError.

(** ** Python values *)

Set Warnings "-register-all".


Inductive pyval : Type :=
| VNone
| VStr (s : string)
| VInt (z : Z)
| VFloat (f : float)
| VList (l : list pyval)
| VDict (d : list (string * pyval)).

(** A [dict] with string keys, in insertion order: the order of the fields
    of a record is the order of the columns of the CSV file. *)
Definition dict : Type := list (string * pyval).

Fixpoint dict_get (d : dict) (k : string) : option pyval :=
  match d with
  | [] => None
  | (k', v) :: d' => if String.eqb k' k then Some v else dict_get d' k
  end.

(** [d[k] = v]: an existing key keeps its place, a new one goes last. *)
Fixpoint dict_set (d : dict) (k : string) (v : pyval) : dict :=
  match d with
  | [] => [(k, v)]
  | (k', v') :: d' =>
      if String.eqb k' k then (k', v) :: d' else (k', v') :: dict_set d' k v
  end.

(** [d.update(e)] *)
Definition dict_update (d e : dict) : dict :=
  fold_left (fun acc kv => dict_set acc (fst kv) (snd kv)) e d.

Definition dict_keys (d : dict) : list string := map fst d.

Definition has_key (d : dict) (k : string) : bool :=
  match dict_get d k with Some _ => true | None => false end.

Definition strs (l : list string) : pyval := VList (map VStr l).

(** ** Strings *)

Definition startswith (p s : string) : bool := String.prefix p s.

(** [s[1:]] *)
Definition tail1 (s : string) : string :=
  match s with
  | EmptyString => EmptyString
  | String _ s' => s'
  end.

(** [s.split(sep)] for a one-character separator. *)
Fixpoint split_on (sep : ascii) (s : string) : list string :=
  match s with
  | EmptyString => [EmptyString]
  | String c s' =>
      if Ascii.eqb c sep then EmptyString :: split_on sep s'
      else match split_on sep s' with
           | [] => [String c EmptyString]
           | seg :: segs => String c seg :: segs
           end
  end.

(** [sep.join(l)] *)
Fixpoint join (sep : string) (l : list string) : string :=
  match l with
  | [] => EmptyString
  | [s] => s
  | s :: l' => s ++ sep ++ join sep l'
  end.

(** [needle in s] *)
Fixpoint contains (needle s : string) : bool :=
  String.prefix needle s
  || match s with
     | EmptyString => false
     | String _ s' => contains needle s'
     end.

(** [s.replace(c, by)] for a one-character pattern. *)
Fixpoint replace_char (c : ascii) (by_ : string) (s : string) : string :=
  match s with
  | EmptyString => EmptyString
  | String a s' =>
      (if Ascii.eqb a c then by_ else String a EmptyString)
      ++ replace_char c by_ s'
  end.

Definition string_rev (s : string) : string :=
  string_of_list_ascii (rev (list_ascii_of_string s)).

Definition slash : ascii := "/"%char.

(** [s[-n:]] *)
Definition last_chars (n : nat) (s : string) : string :=
  substring (length s - n) n s.

(** [l[-1]] of a list that [split] returned, which is never empty. *)
Definition last_part (l : list string) : string := last l "".

(** Truth value of an optional text: [None] and [""] are false. *)
Definition truthy (t : option string) : bool :=
  match t with
  | Some (String _ _) => true
  | _ => false
  end.

(** ** Numbers and dates *)

(** A Python [float] is a binary64 number.  [float(z)] is exact whenever
    [|z| < 2^53]; the integers converted below are day counts and
    hundredths of years, far inside that range. *)
Definition float_of_Z (z : Z) : float :=
  if z <? 0 then PrimFloat.opp (PrimFloat.of_uint63 (Uint63.of_Z (- z)))
  else PrimFloat.of_uint63 (Uint63.of_Z z).

(** [num / den] rounded to the nearest integer, ties to even ([0 < den]). *)
Definition round_half_even (num den : Z) : Z :=
  let q := num / den in
  let r := num mod den in
  if 2 * r <? den then q
  else if den <? 2 * r then q + 1
  else if Z.even q then q else q + 1.

(** [round(x, 2)]: CPython prints [x] to two decimals, correctly rounded
    from the exact value of the double, and reads the decimal back.  A
    double with a non-negative exponent is an integer and is returned as it
    is; zeros, infinities and NaN round to themselves. *)
Definition py_round2 (x : float) : float :=
  match Prim2SF x with
  | S754_finite s m e =>
      if 0 <=? e then x
      else
        let n := round_half_even (Zpos m * 100) (2 ^ (- e)) in
        let r := PrimFloat.div (float_of_Z n) (float_of_Z 100) in
        if s then PrimFloat.opp r else r
  | _ => x
  end.

(** A naive [datetime], counted in microseconds.  All [datetime] objects
    are true, so [not d] and [if d] only test for [None]. *)
Definition datetime : Type := Z.

Definition microseconds_per_day : Z := 86400000000.

(** [(end_date - start_date).days]: a [timedelta] keeps its [days] as the
    floor of the difference. *)
Definition delta_days (end_date start_date : datetime) : Z :=
  (end_date - start_date) / microseconds_per_day.

(** scraper.py 378-380, after [end_date] has been settled. *)
Definition years_between (start_date end_date : datetime) : float :=
  py_round2 (PrimFloat.div (float_of_Z (delta_days end_date start_date))
                           365.25%float).

(** ** What the profile page shows *)

(** A [See All] link: [count()], [inner_text()], [click()], and whether its
    text turns to [See Less] in time. *)
Record see_all_link : Type := mkSeeAllLink {
  see_all_count : nat;
  see_all_inner_text : result string;
  see_all_click : result unit;
  see_less_shown : bool
}.

(** scraper.py 130-137 *)
Definition _click_see_all_and_wait_for_content (l : see_all_link)
    : result unit :=
  if (0 <? see_all_count l)%nat then
    button_text <- see_all_inner_text l ;;
    if contains "See All" button_text then
      see_all_click l ;;; expect (see_less_shown l)
    else Ok tt
  else Ok tt.

(** An entry of the bank-experience list.  An element that
    [query_selector] found is given by its inner text, a missing one by
    [None]. *)
Record experience : Type := mkExperience {
  sf_experience_from : option string;
  sf_designation : option string;
  sf_units : option string
}.

(** An item of the pre-bank experience list. *)
Record pre_bank_item : Type := mkPreBankItem {
  pb_title : option string;          (* .sf-title-txt *)
  pb_organization : option string;   (* div:not(.sf-title-txt):not(.sf-content-txt) *)
  pb_date_range : option string      (* .sf-content-txt.mt-1 *)
}.

Record pre_bank_ui : Type := mkPreBankUi {
  pre_bank_tab_count : nat;
  pre_bank_tab_click : result unit;
  pre_bank_view_all : see_all_link;
  experience_items : list pre_bank_item
}.

(** An item of the formal-education list. *)
Record education_item : Type := mkEducationItem {
  ed_degree : option string;         (* .sf-title-txt *)
  ed_institution : option string;    (* .sf-content-txt.sf-text-dark *)
  ed_year : option string            (* .sf-content-txt.mt-1 *)
}.

Record education_ui : Type := mkEducationUi {
  education_tab_count : nat;
  education_tab_click : result unit;
  education_networkidle : result unit;
  education_view_all : see_all_link;
  education_items : list education_item
}.

(** An entry of the documents list.  The title link is given by its inner
    text and its [href] attribute, [None] when the anchor has none. *)
Record doc_entry : Type := mkDocEntry {
  doc_date : option string;                       (* .sf-date *)
  doc_title : option (string * option string);    (* .sf-title-txt a *)
  doc_description : option string                 (* .sf-doc-des *)
}.

Record documents_ui : Type := mkDocumentsUi {
  doc_tab : option (result unit);       (* the tab, by the outcome of click() *)
  doc_wait_for_selector : result unit;
  doc_view_all : see_all_link;
  doc_entries : list doc_entry
}.

(** An [li] of the awards list, by the three texts [_get_text_content]
    reads from it. *)
Record award_elem : Type := mkAwardElem {
  award_bold : option string;   (* .sf-bold *)
  award_dept : option string;   (* .sf-dept *)
  award_date : option string    (* .sf-date *)
}.

(** A language row: [.sf-text-secondary] and [.sf-lang-item]. *)
Record language_elem : Type := mkLanguageElem {
  lang_name : option string;
  lang_level : option string
}.

Record expertise_ui : Type := mkExpertiseUi {
  expertise_section : option (list string);   (* .sf-area-title texts *)
  skills_section : option (list string);
  languages_section : option (list language_elem)
}.

Record basic_ui : Type := mkBasicUi {
  page_url : string;
  official_unit : option string;
  current_unit : option string;
  unit_code_link : option string;
  work_location : option string;
  room_container : option string
}.

Section Model.

(** The character classes of [str.isdigit] and [str.strip] come from the
    Unicode database, which is not part of the repository. *)
Variable isdigit_char : ascii -> bool.
Variable isspace_char : ascii -> bool.

Fixpoint all_digits (s : string) : bool :=
  match s with
  | EmptyString => true
  | String c s' => isdigit_char c && all_digits s'
  end.

(** [s.isdigit()]: every character is a digit and there is at least one. *)
Definition isdigit (s : string) : bool :=
  match s with
  | EmptyString => false
  | _ => all_digits s
  end.

Fixpoint lstrip (s : string) : string :=
  match s with
  | EmptyString => EmptyString
  | String c s' => if isspace_char c then lstrip s' else s
  end.

Definition rstrip (s : string) : string := string_rev (lstrip (string_rev s)).

(** [s.strip()] *)
Definition strip (s : string) : string := rstrip (lstrip s).

(** ** Project listings ([PersonProjectsScraper]) *)

Record ProjectTypeData : Type := mkProjectTypeData {
  projects : list string;
  project_codes : list string;
  project_statuses : list string;
  project_years : list string
}.

Record ProjectData : Type := mkProjectData {
  lending : ProjectTypeData;
  non_lending : ProjectTypeData;
  ifc : ProjectTypeData
}.

Definition all_projects (d : ProjectData) : list string :=
  projects (lending d) ++ projects (non_lending d) ++ projects (ifc d).

Definition all_project_codes (d : ProjectData) : list string :=
  project_codes (lending d) ++ project_codes (non_lending d)
  ++ project_codes (ifc d).

Definition all_project_statuses (d : ProjectData) : list string :=
  project_statuses (lending d) ++ project_statuses (non_lending d)
  ++ project_statuses (ifc d).

Definition all_project_years (d : ProjectData) : list string :=
  project_years (lending d) ++ project_years (non_lending d)
  ++ project_years (ifc d).

(** One [accordion-group] of the listing, as the item loop reads it. *)
Record project_item : Type := mkProjectItem {
  (* a.sf-project-title: inner_text() *)
  title_text : result string;
  (* a.sf-project-title: get_attribute("href"), None when there is none *)
  title_href : result (option string);
  (* the Status span: None when count() is 0, else inner_text() *)
  status_text : option (result string);
  (* the Fiscal Year span, likewise *)
  year_text : option (result string)
}.

(** One page of the listing. *)
Record listing_page : Type := mkListingPage {
  (* is an li.current holding this page number visible in time? *)
  current_has_text : nat -> bool;
  accordion : list project_item;
  (* li.pagination-next:not(.disabled) a: count() and click() *)
  next_button_count : nat;
  next_button_click : result unit
}.

(** What one category's tab shows. *)
Record listing_ui : Type := mkListingUi {
  heading_contains_text : bool;
  tab_visible : bool;
  tab_click : result unit;
  accordion_visible : bool;
  select_count : nat;
  select_option : result unit;
  accordion_visible_again : bool;
  (* the pages in the order the next button brings them up; past the last
     one no current-page indicator shows the expected number *)
  pages : list listing_page
}.

(** scraper.py 514-522: the test applied to one path segment. *)
Definition code_matches (project_type part : string) : bool :=
  if String.eqb project_type "ifc" then
    isdigit part && (5 <=? length part)%nat
  else
    startswith "P" part && isdigit (tail1 part).

(** scraper.py 513-522: [for part in reversed(parts)], leaving at the first
    segment that passes; [parts] is already reversed here. *)
Fixpoint scan_parts (project_type : string) (parts : list string) : string :=
  match parts with
  | [] => ""
  | part :: rest =>
      if code_matches project_type part then part
      else scan_parts project_type rest
  end.

(** scraper.py 510-522 *)
Definition derive_code (project_type href : string) : string :=
  if String.eqb href "" then ""
  else scan_parts project_type (rev (split_on slash href)).

Definition or_na (t : option (result string)) : result string :=
  match t with
  | Some r => r
  | None => Ok "N/A"
  end.

(** scraper.py 505-532: one turn of the item loop. *)
Definition collect_item (project_type : string) (acc : ProjectTypeData)
    (project : project_item) : result ProjectTypeData :=
  title <- title_text project ;;
  href <- title_href project ;;
  code <- match href with
          | Some h => Ok (derive_code project_type h)
          | None => Raise AttributeError
          end ;;
  status <- or_na (status_text project) ;;
  year <- or_na (year_text project) ;;
  Ok {| projects := projects acc ++ [strip title];
        project_codes := project_codes acc ++ [code];
        project_statuses := project_statuses acc ++ [status];
        project_years := project_years acc ++ [year] |}.

(** scraper.py 504: [for i in range(count)] *)
Fixpoint collect_items (project_type : string) (acc : ProjectTypeData)
    (items : list project_item) : result ProjectTypeData :=
  match items with
  | [] => Ok acc
  | project :: rest =>
      acc' <- collect_item project_type acc project ;;
      collect_items project_type acc' rest
  end.

(** scraper.py 497-540: the page loop. *)
Fixpoint collect_pages (project_type : string) (page_number : nat)
    (acc : ProjectTypeData) (pgs : list listing_page)
    : result ProjectTypeData :=
  match pgs with
  | [] => Raise AssertionError
  | pg :: rest =>
      expect (current_has_text pg page_number) ;;;
      acc' <- collect_items project_type acc (accordion pg) ;;
      if (0 <? next_button_count pg)%nat then
        next_button_click pg ;;;
        collect_pages project_type (S page_number) acc' rest
      else Ok acc'
  end.

Definition empty_project_type_data : ProjectTypeData :=
  mkProjectTypeData [] [] [] [].

(** scraper.py 476-542: the body of the [try]. *)
Definition collect_project_type_body (project_type : string)
    (ui : listing_ui) : result ProjectTypeData :=
  expect (heading_contains_text ui) ;;;
  expect (tab_visible ui) ;;;
  tab_click ui ;;;
  expect (accordion_visible ui) ;;;
  (if (0 <? select_count ui)%nat then select_option ui else Ok tt) ;;;
  expect (accordion_visible_again ui) ;;;
  collect_pages project_type 1 empty_project_type_data (pages ui).

(** scraper.py 474-545 *)
Definition _collect_project_type_data (project_type : string)
    (ui : listing_ui) : ProjectTypeData :=
  match collect_project_type_body project_type ui with
  | Ok d => d
  | Raise _ => mkProjectTypeData [] [] [] []
  end.

(** What the projects scraper sees of the page. *)
Record projects_ui : Type := mkProjectsUi {
  view_all_projects_count : nat;
  view_all_projects_click : result unit;
  wait_for_networkidle : result unit;
  (* the listing behind the tab of each project type *)
  listing : string -> listing_ui
}.

Definition project_dict (d : ProjectData) : dict :=
  [ ("lending_projects", strs (projects (lending d)));
    ("lending_project_codes", strs (project_codes (lending d)));
    ("lending_project_statuses", strs (project_statuses (lending d)));
    ("lending_project_years", strs (project_years (lending d)));
    ("non_lending_projects", strs (projects (non_lending d)));
    ("non_lending_project_codes", strs (project_codes (non_lending d)));
    ("non_lending_project_statuses", strs (project_statuses (non_lending d)));
    ("non_lending_project_years", strs (project_years (non_lending d)));
    ("ifc_projects", strs (projects (ifc d)));
    ("ifc_project_codes", strs (project_codes (ifc d)));
    ("ifc_project_statuses", strs (project_statuses (ifc d)));
    ("ifc_project_years", strs (project_years (ifc d)));
    ("all_projects", strs (all_projects d));
    ("all_project_codes", strs (all_project_codes d));
    ("all_project_statuses", strs (all_project_statuses d));
    ("all_project_years", strs (all_project_years d)) ].

(** scraper.py 455-472: the literal of the [except] branch. *)
Definition empty_project_dict : dict :=
  [ ("lending_projects", VList []);
    ("lending_project_codes", VList []);
    ("lending_project_statuses", VList []);
    ("lending_project_years", VList []);
    ("non_lending_projects", VList []);
    ("non_lending_project_codes", VList []);
    ("non_lending_project_statuses", VList []);
    ("non_lending_project_years", VList []);
    ("ifc_projects", VList []);
    ("ifc_project_codes", VList []);
    ("ifc_project_statuses", VList []);
    ("ifc_project_years", VList []);
    ("all_projects", VList []);
    ("all_project_codes", VList []);
    ("all_project_statuses", VList []);
    ("all_project_years", VList []) ].

(** scraper.py 424-433 *)
Definition scrape_project_data (ui : projects_ui) : result ProjectData :=
  (if (0 <? view_all_projects_count ui)%nat then
     view_all_projects_click ui ;;; wait_for_networkidle ui
   else Ok tt) ;;;
  Ok {| lending := _collect_project_type_data "lending" (listing ui "lending");
        non_lending :=
          _collect_project_type_data "nonlending" (listing ui "nonlending");
        ifc := _collect_project_type_data "ifc" (listing ui "ifc") |}.

(** scraper.py 422-472 *)
Definition scrape_projects (ui : projects_ui) : dict :=
  match scrape_project_data ui with
  | Ok project_data => project_dict project_data
  | Raise _ => empty_project_dict
  end.

(** ** Section extractors ([PersonProfileScraper]) *)

(** [datetime.strptime(s, "%b %d, %Y")]: the parsed date, or [None] where
    Python raises [ValueError].  Month names follow the locale, so the
    parser is left open. *)
Variable strptime : string -> option datetime.

Definition opt_str (t : option string) : pyval :=
  match t with
  | Some s => VStr s
  | None => VNone
  end.

Definition text_or (default : string) (t : option string) : string :=
  match t with
  | Some s => s
  | None => default
  end.

(** [s.replace(pat, by)] for a non-empty [pat]; [skip] counts the
    characters of a match still to be passed over. *)
Fixpoint replace_from (pat by_ : string) (skip : nat) (s : string) : string :=
  match s with
  | EmptyString => EmptyString
  | String c s' =>
      match skip with
      | S k => replace_from pat by_ k s'
      | O =>
          if String.prefix pat s
          then by_ ++ replace_from pat by_ (length pat - 1) s'
          else String c (replace_from pat by_ 0 s')
      end
  end.

Definition replace (pat by_ s : string) : string := replace_from pat by_ 0 s.

(** scraper.py 153-158 *)
Definition _get_unit_code (ui : basic_ui) : string :=
  match unit_code_link ui with
  | Some unit_code => strip unit_code
  | None => "N/A"
  end.

(** scraper.py 368-373 *)
Definition _get_room_and_mail_stop (ui : basic_ui) : string :=
  match room_container ui with
  | Some full_text => strip (replace "Room No" "" full_text)
  | None => ""
  end.

(** scraper.py 139-151 *)
Definition _extract_basic_info (name : string) (ui : basic_ui) : dict :=
  [ ("name", VStr name);
    ("official_unit_name", opt_str (official_unit ui));
    ("current_unit_name", opt_str (current_unit ui));
    ("unit_code", VStr (_get_unit_code ui));
    ("work_and_duty_location", opt_str (work_location ui));
    ("room_number", VStr (_get_room_and_mail_stop ui));
    ("url", VStr (page_url ui));
    ("upi", VStr (last_chars 6 (last_part (split_on slash (page_url ui))))) ].

(** The variables of the bank-experience loop (scraper.py 162-167). *)
Record bank_state : Type := mkBankState {
  current_position_start : option datetime;
  bank_start : option datetime;
  last_position : string;
  all_positions : list string;
  years_in_fci : float;
  next_position_start_date : datetime
}.

Definition is_fci (unit : string) : bool :=
  contains "FCI" unit
  || contains "Finance, Competitiveness & Innovation" unit.

(** scraper.py 170-195: one turn of the loop over the entries. *)
Definition bank_step (st : bank_state) (exp : experience)
    : result bank_state :=
  match sf_experience_from exp with
  | None => Ok st
  | Some text =>
      let date_str := strip text in
      match strptime date_str with
      | None => Raise ValueError
      | Some date =>
          let designation := text_or "" (sf_designation exp) in
          let unit := text_or "" (sf_units exp) in
          Ok {| bank_start :=
                  match bank_start st with
                  | None => Some date
                  | Some b => if date <? b then Some date else Some b
                  end;
                years_in_fci :=
                  if is_fci unit then
                    PrimFloat.add (years_in_fci st)
                      (years_between date (next_position_start_date st))
                  else years_in_fci st;
                current_position_start :=
                  match current_position_start st with
                  | None => Some date
                  | Some c => Some c
                  end;
                last_position :=
                  match current_position_start st with
                  | None => (designation ++ " - " ++ unit)%string
                  | Some _ => last_position st
                  end;
                all_positions :=
                  all_positions st
                  ++ [(date_str ++ ": " ++ designation ++ " - " ++ unit)%string];
                next_position_start_date := date |}
      end
  end.

Fixpoint bank_loop (st : bank_state) (exps : list experience)
    : result bank_state :=
  match exps with
  | [] => Ok st
  | exp :: rest => st' <- bank_step st exp ;; bank_loop st' rest
  end.

(** [await self._calculate_years(d) if d else 0], the clock being read only
    when there is a date. *)
Definition years_since (d : option datetime) (now : datetime) : pyval :=
  match d with
  | Some start_date => VFloat (years_between start_date now)
  | None => VInt 0
  end.

(** scraper.py 160-206.  [now k] is the k-th reading of [datetime.now()]
    that the call makes: at line 167, then inside [_calculate_years] at
    lines 197 and 198. *)
Definition _extract_bank_experience (now : nat -> datetime)
    (bank_experience : list experience) : result dict :=
  st <- bank_loop {| current_position_start := None;
                     bank_start := None;
                     last_position := "";
                     all_positions := [];
                     years_in_fci := 0%float;
                     next_position_start_date := now 0%nat |}
                  bank_experience ;;
  Ok [ ("years_in_current_position",
          years_since (current_position_start st) (now 1%nat));
       ("years_in_fci", VFloat (years_in_fci st));
       ("years_in_bank", years_since (bank_start st) (now 2%nat));
       ("last_position", VStr (last_position st));
       ("all_positions", VStr (join "; " (all_positions st))) ].

(** scraper.py 227-239 *)
Definition pre_bank_entry (item : pre_bank_item) : list pyval :=
  match pb_title item, pb_organization item, pb_date_range item with
  | Some title, Some organization, Some date_range =>
      [ VDict [ ("title", VStr title);
                ("organization", VStr organization);
                ("date_range", VStr date_range) ] ]
  | _, _, _ => []
  end.

(** scraper.py 208-241 *)
Definition _extract_pre_bank_experience (ui : pre_bank_ui) : result dict :=
  if (pre_bank_tab_count ui =? 0)%nat then
    Ok [ ("pre_bank_experience", VList [VDict []]) ]
  else
    pre_bank_tab_click ui ;;;
    _click_see_all_and_wait_for_content (pre_bank_view_all ui) ;;;
    Ok [ ("pre_bank_experience",
            VList (flat_map pre_bank_entry (experience_items ui))) ].

(** scraper.py 261-273 *)
Definition education_entry (item : education_item) : list pyval :=
  match ed_degree item, ed_institution item, ed_year item with
  | Some degree, Some institution, Some year =>
      [ VDict [ ("degree", VStr degree);
                ("institution", VStr institution);
                ("year", VStr year) ] ]
  | _, _, _ => []
  end.

(** scraper.py 243-275 *)
Definition _extract_formal_education (ui : education_ui) : result dict :=
  if (education_tab_count ui =? 0)%nat then
    Ok [ ("formal_education", VNone) ]
  else
    education_tab_click ui ;;;
    education_networkidle ui ;;;
    _click_see_all_and_wait_for_content (education_view_all ui) ;;;
    Ok [ ("formal_education",
            VList (flat_map education_entry (education_items ui))) ].

(** [d[k]] *)
Definition getitem (d : dict) (k : string) : result pyval :=
  match dict_get d k with
  | Some v => Ok v
  | None => Raise KeyError
  end.

Fixpoint map_result {A B : Type} (f : A -> result B) (l : list A)
    : result (list B) :=
  match l with
  | [] => Ok []
  | a :: l' => b <- f a ;; bs <- map_result f l' ;; Ok (b :: bs)
  end.

(** scraper.py 297-318: the dict built from one entry.  An anchor without
    [href] gives [None] for [title_link], and [None.split] raises. *)
Definition document_of (entry : doc_entry) : result dict :=
  let date_text := text_or "N/A" (doc_date entry) in
  let title_text :=
    match doc_title entry with Some (t, _) => t | None => "N/A" end in
  let title_link :=
    match doc_title entry with Some (_, href) => href | None => Some "N/A" end in
  let description_text := text_or "N/A" (doc_description entry) in
  match title_link with
  | None => Raise AttributeError
  | Some link =>
      let doc_id :=
        if negb (String.eqb link "N/A") then last_part (split_on slash link)
        else "N/A" in
      Ok [ ("id", VStr doc_id);
           ("date", VStr (strip date_text));
           ("title", VStr (strip title_text));
           ("link", VStr link);
           ("description", VStr (strip description_text)) ]
  end.

(** scraper.py 320-323 *)
Definition documents_result (documents : list dict) : result dict :=
  ids <- map_result (fun doc => getitem doc "id") documents ;;
  Ok [ ("documents_and_reports", VList (map VDict documents));
       ("document_ids", VList ids) ].

(** scraper.py 277-323 *)
Definition _extract_documents_and_reports (ui : documents_ui)
    : result dict :=
  match doc_tab ui with
  | None => documents_result []
  | Some click =>
      click ;;;
      match doc_wait_for_selector ui ;;;
            _click_see_all_and_wait_for_content (doc_view_all ui) with
      | Raise _ =>
          Ok [ ("documents_and_reports", VList []); ("document_ids", VList []) ]
      | Ok _ =>
          documents <- map_result document_of (doc_entries ui) ;;
          documents_result documents
      end
  end.

(** scraper.py 382-400: the same loop serves both sections. *)
Definition area_titles (section : option (list string)) : list string :=
  match section with
  | Some texts => map strip texts
  | None => []
  end.

(** scraper.py 407-413 *)
Definition language_entry (lang : language_elem) : list pyval :=
  match lang_name lang with
  | Some name =>
      [ VDict [ ("language", VStr (strip name));
                ("level", VStr (strip (text_or "N/A" (lang_level lang)))) ] ]
  | None => []
  end.

(** scraper.py 325-330 and 382-414 *)
Definition _extract_expertise_and_skills (ui : expertise_ui) : dict :=
  [ ("areas_of_expertise", strs (area_titles (expertise_section ui)));
    ("skills", strs (area_titles (skills_section ui)));
    ("languages",
       VList (match languages_section ui with
              | Some langs => flat_map language_entry langs
              | None => []
              end)) ].

(** scraper.py 357-364: one turn of the loop, on the pair
    [(awards, total_awards)]. *)
Definition award_step (acc : list string * Z) (award : award_elem)
    : list string * Z :=
  if truthy (award_bold award) && truthy (award_dept award)
     && truthy (award_date award)
  then (fst acc
          ++ [(text_or "" (award_bold award) ++ "|"
               ++ text_or "" (award_dept award) ++ "|"
               ++ text_or "" (award_date award))%string],
        snd acc + 1)
  else acc.

(** scraper.py 352-366 *)
Definition _extract_awards (award_elements : list award_elem) : dict :=
  let acc := fold_left award_step award_elements ([], 0) in
  [ ("list_of_awards", VStr (join ", " (fst acc)));
    ("total_number_of_awards", VInt (snd acc)) ].

(** ** The profile orchestrator *)

(** The annotations of [ProfileData], in the order of declaration
    (scraper.py 12-49). *)
Definition profile_fields : list string :=
  [ "name"; "official_unit_name"; "current_unit_name"; "unit_code";
    "work_and_duty_location"; "room_number"; "url"; "upi";
    "years_in_current_position"; "years_in_fci"; "years_in_bank";
    "last_position"; "all_positions"; "pre_bank_experience";
    "formal_education"; "documents_and_reports"; "document_ids";
    "areas_of_expertise"; "skills"; "languages"; "list_of_awards";
    "total_number_of_awards";
    "lending_projects"; "lending_project_codes";
    "lending_project_statuses"; "lending_project_years";
    "non_lending_projects"; "non_lending_project_codes";
    "non_lending_project_statuses"; "non_lending_project_years";
    "ifc_projects"; "ifc_project_codes"; "ifc_project_statuses";
    "ifc_project_years";
    "all_projects"; "all_project_codes"; "all_project_statuses";
    "all_project_years" ].

Definition is_field (k : string) : bool := existsb (String.eqb k) profile_fields.

(** A [ProfileData] instance: its fields with their values, in the order
    of declaration. *)
Definition ProfileData : Type := dict.

Definition field_value (d : dict) (k : string) : string * pyval :=
  (k, match dict_get d k with Some v => v | None => VNone end).

(** [ProfileData] called with [profile_dict] as its keywords: the
    generated [__init__] raises [TypeError] for a keyword that is no field
    and for a field without a value, no field having a default. *)
Definition new_ProfileData (profile_dict : dict) : result ProfileData :=
  if forallb is_field (dict_keys profile_dict)
     && forallb (has_key profile_dict) profile_fields
  then Ok (map (field_value profile_dict) profile_fields)
  else Raise TypeError.

(** What the methods that [scrape_profile] calls do on one profile, each by
    its outcome.  The orchestrator is written against this interface, so
    that it can be run on extractors other than the ones above. *)
Record profile_run : Type := mkProfileRun {
  run_wait_for_profile_load : result unit;
  (* the [See All] buttons: is_visible() and click() *)
  run_see_all_buttons : list (bool * result unit);
  run_basic_info : result dict;
  run_bank_experience : result dict;
  run_pre_bank_experience : result dict;
  run_formal_education : result dict;
  run_documents_and_reports : result dict;
  run_expertise_and_skills : result dict;
  run_awards : result dict;
  run_download_profile_image : pyval -> result unit;
  run_scrape_projects : result dict
}.

(** scraper.py 100-103 *)
Fixpoint click_visible (buttons : list (bool * result unit)) : result unit :=
  match buttons with
  | [] => Ok tt
  | (visible, click) :: rest =>
      (if visible then click else Ok tt) ;;; click_visible rest
  end.

(** scraper.py 97-120 *)
Definition scrape_profile (r : profile_run) : result ProfileData :=
  run_wait_for_profile_load r ;;;
  click_visible (run_see_all_buttons r) ;;;
  profile_dict <- run_basic_info r ;;
  e <- run_bank_experience r ;;
  let profile_dict := dict_update profile_dict e in
  e <- run_pre_bank_experience r ;;
  let profile_dict := dict_update profile_dict e in
  e <- run_formal_education r ;;
  let profile_dict := dict_update profile_dict e in
  e <- run_documents_and_reports r ;;
  let profile_dict := dict_update profile_dict e in
  e <- run_expertise_and_skills r ;;
  let profile_dict := dict_update profile_dict e in
  e <- run_awards r ;;
  let profile_dict := dict_update profile_dict e in
  upi <- getitem profile_dict "upi" ;;
  run_download_profile_image r upi ;;;
  project_data <- run_scrape_projects r ;;
  let profile_dict := dict_update profile_dict project_data in
  new_ProfileData profile_dict.

(** One profile page, as the extractors of this file read it. *)
Record profile_page : Type := mkProfilePage {
  (* scraper.py 124-126: the three waits of [_wait_for_profile_load] *)
  profile_name_shown : bool;
  profile_completion_visible : bool;
  profile_views_visible : bool;
  see_all_buttons : list (bool * result unit);
  basic : basic_ui;
  bank_experience : list experience;
  pre_bank : pre_bank_ui;
  education : education_ui;
  documents : documents_ui;
  expertise : expertise_ui;
  award_elements : list award_elem;
  (* .sf-profile-img img, by the outcome of its screenshot() *)
  profile_img : option (result unit);
  project_listings : projects_ui
}.

(** scraper.py 122-128 *)
Definition _wait_for_profile_load (page : profile_page) : result unit :=
  expect (profile_name_shown page) ;;;
  expect (profile_completion_visible page) ;;;
  expect (profile_views_visible page).

(** scraper.py 332-342 *)
Definition _download_profile_image (page : profile_page) (upi : pyval)
    : result unit :=
  match profile_img page with
  | Some screenshot => screenshot
  | None => Ok tt
  end.

(** [PersonProfileScraper(page, name)] with the methods of this file. *)
Definition run_of_page (now : nat -> datetime) (name : string)
    (page : profile_page) : profile_run :=
  {| run_wait_for_profile_load := _wait_for_profile_load page;
     run_see_all_buttons := see_all_buttons page;
     run_basic_info := Ok (_extract_basic_info name (basic page));
     run_bank_experience := _extract_bank_experience now (bank_experience page);
     run_pre_bank_experience := _extract_pre_bank_experience (pre_bank page);
     run_formal_education := _extract_formal_education (education page);
     run_documents_and_reports :=
       _extract_documents_and_reports (documents page);
     run_expertise_and_skills :=
       Ok (_extract_expertise_and_skills (expertise page));
     run_awards := Ok (_extract_awards (award_elements page));
     run_download_profile_image := _download_profile_image page;
     run_scrape_projects := Ok (scrape_projects (project_listings page)) |}.

(** ** Persistence ([data_processing.py]) *)

(** [repr] of a value that is not a string: Python's own printer. *)
Variable repr : pyval -> string.

(** What [csv.DictReader], with its default dialect, reads back from a cell
    that [csv.DictWriter] wrote with [QUOTE_ALL] and the backslash as
    [escapechar]. *)
Variable csv_read_back : string -> string.

Definition str (v : pyval) : string :=
  match v with
  | VStr s => s
  | _ => repr v
  end.

Definition LF : ascii := ascii_of_nat 10.
Definition CR : ascii := ascii_of_nat 13.

(** data_processing.py 29-32: the value of [row_data] for one field, as it
    is handed to the CSV writer; the quoting and escaping of the writer
    come on top of it. *)
Definition csv_value (v : pyval) : string :=
  let value := replace_char CR "\r" (replace_char LF "\n" (str v)) in
  if 32000 <? Z.of_nat (length value)
  then substring 0 (Z.to_nat 32000) value ++ "... (truncated)"
  else value.

(** The three output files: the rows of [persons_profiles.csv] under its
    header, each as the [row_data] that was handed to the writer, the array
    of [persons_profiles.json], and the lines of [persons_not_found.csv].
    A file that does not exist yet has none. *)
Record files : Type := mkFiles {
  persons_profiles_csv : list (list (string * string));
  persons_profiles_json : list dict;
  persons_not_found_csv : list string
}.

(** data_processing.py 17-34 *)
Definition save_profile_data (profile_data : ProfileData) (fs : files)
    : files :=
  {| persons_profiles_csv :=
       persons_profiles_csv fs
       ++ [map (fun kv => (fst kv, csv_value (snd kv))) profile_data];
     persons_profiles_json := persons_profiles_json fs;
     persons_not_found_csv := persons_not_found_csv fs |}.

(** data_processing.py 37-40 *)
Definition save_names_not_found (name : string) (fs : files) : files :=
  {| persons_profiles_csv := persons_profiles_csv fs;
     persons_profiles_json := persons_profiles_json fs;
     persons_not_found_csv := persons_not_found_csv fs ++ [name] |}.

(** data_processing.py 43-54 *)
Definition save_profile_data_json (profile_data : ProfileData) (fs : files)
    : files :=
  {| persons_profiles_csv := persons_profiles_csv fs;
     persons_profiles_json := persons_profiles_json fs ++ [profile_data];
     persons_not_found_csv := persons_not_found_csv fs |}.

Fixpoint row_get (row : list (string * string)) (k : string)
    : option string :=
  match row with
  | [] => None
  | (k', v) :: row' => if String.eqb k' k then Some v else row_get row' k
  end.

(** data_processing.py 57-63: the [name] column of every row; a row too
    short to have one reads as [None]. *)
Definition read_existing_profiles (fs : files) : list (option string) :=
  map (fun row => option_map csv_read_back (row_get row "name"))
      (persons_profiles_csv fs).

(** [name in existing_profiles] *)
Definition in_existing (name : string) (existing : list (option string))
    : bool :=
  existsb (fun o => match o with
                    | Some s => String.eqb s name
                    | None => false
                    end) existing.

(** ** The batch driver ([main.py]) *)

(** The people search, as [main] uses it for one name. *)
Record search_ui : Type := mkSearchUi {
  (* lines 31-35: goto, storage_state, fill, press *)
  open_search : result unit;
  (* .sf-people-name, first: wait_for(), inner_text(), click() *)
  first_result_wait_for : result unit;
  first_result_inner_text : result string;
  first_result_click : result unit
}.

(** main.py 31-55 for one name that was not skipped.  A [Locator] is
    always true, so the [else] of line 54 is never taken.  The files come
    back as they stand when an exception leaves the loop. *)
Definition search_and_scrape (scraped : result ProfileData) (ui : search_ui)
    (name : string) (fs : files) : files * result unit :=
  match open_search ui with
  | Raise e => (fs, Raise e)
  | Ok _ =>
      match first_result_wait_for ui with
      | Raise TimeoutError => (save_names_not_found name fs, Ok tt)
      | Raise e => (fs, Raise e)
      | Ok _ =>
          match first_result_inner_text ui with
          | Raise e => (fs, Raise e)
          | Ok first_result_text =>
              if negb (contains name first_result_text) then
                (save_names_not_found name fs, Ok tt)
              else
                match first_result_click ui with
                | Raise e => (fs, Raise e)
                | Ok _ =>
                    match scraped with
                    | Raise e => (fs, Raise e)
                    | Ok profile_data =>
                        (save_profile_data_json profile_data
                           (save_profile_data profile_data fs), Ok tt)
                    end
                end
          end
      end
  end.

(** main.py 24-55: the loop over [staff_names].  [i] counts the names gone
    through; [runs i name] is what the profile scraper meets on that turn. *)
Fixpoint batch (runs : nat -> string -> profile_run)
    (site : string -> search_ui) (existing_profiles : list (option string))
    (i : nat) (staff_names : list string) (fs : files)
    : files * result unit :=
  match staff_names with
  | [] => (fs, Ok tt)
  | name :: rest =>
      if in_existing name existing_profiles then
        batch runs site existing_profiles (S i) rest fs
      else
        match search_and_scrape (scrape_profile (runs i name))
                                (site name) name fs with
        | (fs', Ok _) => batch runs site existing_profiles (S i) rest fs'
        | (fs', Raise e) => (fs', Raise e)
        end
  end.

(** main.py 15-57, over any implementation of the section extractors. *)
Definition main_with (runs : nat -> string -> profile_run)
    (site : string -> search_ui) (staff_names : list string) (fs : files)
    : files * result unit :=
  batch runs site (read_existing_profiles fs) 0 staff_names fs.

(** main.py 15-57.  [now i k] is the k-th clock reading of the i-th turn,
    [pages name] the profile page that the first search result opens. *)
Definition main (now : nat -> nat -> datetime) (site : string -> search_ui)
    (pages : string -> profile_page) (staff_names : list string)
    (fs : files) : files * result unit :=
  main_with (fun i name => run_of_page (now i) name (pages name))
            site staff_names fs.

(** * Properties *)

(** ** The error monad *)

Lemma bind_Ok_inv {A B : Type} (r : result A) (k : A -> result B) (b : B) :
  bind r k = Ok b -> exists a, r = Ok a /\ k a = Ok b.
Proof.
  destruct r as [a | e]; simpl; intros H; [eauto | discriminate].
Qed.

Ltac bind_inv H :=
  let a := fresh "a" in
  let Ha := fresh "Ha" in
  apply bind_Ok_inv in H; destruct H as (a & Ha & H).

(** ** Dictionaries *)

Definition list_at (d : dict) (k : string) : option (list pyval) :=
  match dict_get d k with
  | Some (VList l) => Some l
  | _ => None
  end.

(** ** Project listings: parallel arrays *)

Definition parallel (d : ProjectTypeData) : Prop :=
  List.length (project_codes d) = List.length (projects d)
  /\ List.length (project_statuses d) = List.length (projects d)
  /\ List.length (project_years d) = List.length (projects d).

(** Each array of [d'] is the matching array of [d] with [n] more items. *)
Definition grown_by (n : nat) (d d' : ProjectTypeData) : Prop :=
  List.length (projects d') = (List.length (projects d) + n)%nat
  /\ List.length (project_codes d') = (List.length (project_codes d) + n)%nat
  /\ List.length (project_statuses d') = (List.length (project_statuses d) + n)%nat
  /\ List.length (project_years d') = (List.length (project_years d) + n)%nat.

Lemma grown_by_parallel (n : nat) (d d' : ProjectTypeData) :
  grown_by n d d' -> parallel d -> parallel d'.
Proof.
  unfold grown_by, parallel. intros (H1 & H2 & H3 & H4) (P1 & P2 & P3).
  repeat split; lia.
Qed.

Lemma collect_item_grows (project_type : string) (acc acc' : ProjectTypeData)
    (project : project_item) :
  collect_item project_type acc project = Ok acc' -> grown_by 1 acc acc'.
Proof.
  unfold collect_item. intros H.
  do 5 bind_inv H. injection H as <-.
  unfold grown_by; simpl. rewrite !length_app; simpl. repeat split; lia.
Qed.

Lemma collect_items_grow (project_type : string) (items : list project_item) :
  forall acc acc',
    collect_items project_type acc items = Ok acc' ->
    grown_by (List.length items) acc acc'.
Proof.
  induction items as [| project rest IH]; simpl; intros acc acc' H.
  - injection H as <-. unfold grown_by. repeat split; lia.
  - bind_inv H. apply collect_item_grows in Ha. apply IH in H.
    unfold grown_by in *. simpl. repeat split; lia.
Qed.

Lemma collect_pages_parallel (project_type : string)
    (pgs : list listing_page) :
  forall page_number acc acc',
    parallel acc ->
    collect_pages project_type page_number acc pgs = Ok acc' ->
    parallel acc'.
Proof.
  induction pgs as [| pg rest IH]; simpl; intros page_number acc acc' P H.
  - discriminate.
  - bind_inv H. bind_inv H.
    apply collect_items_grow in Ha0.
    pose proof (grown_by_parallel _ _ _ Ha0 P) as P'.
    destruct (0 <? next_button_count pg)%nat.
    + bind_inv H. eapply IH; eauto.
    + injection H as <-. exact P'.
Qed.

Lemma empty_parallel : parallel empty_project_type_data.
Proof. unfold parallel; simpl; auto. Qed.

Lemma collect_project_type_parallel (project_type : string) (ui : listing_ui) :
  parallel (_collect_project_type_data project_type ui).
Proof.
  unfold _collect_project_type_data.
  destruct (collect_project_type_body project_type ui) as [d | e] eqn:H.
  - unfold collect_project_type_body in H.
    do 6 bind_inv H.
    eapply collect_pages_parallel; [apply empty_parallel | exact H].
  - apply empty_parallel.
Qed.

(** The four arrays that a result of [scrape_projects] holds under the
    keys of one view ([lending_], [non_lending_], [ifc_] or [all_]) are
    lists of one length. *)
Definition view_parallel (r : dict) (view : string) : Prop :=
  exists titles codes statuses years,
    list_at r (view ++ "projects") = Some titles
    /\ list_at r (view ++ "project_codes") = Some codes
    /\ list_at r (view ++ "project_statuses") = Some statuses
    /\ list_at r (view ++ "project_years") = Some years
    /\ List.length codes = List.length titles
    /\ List.length statuses = List.length titles
    /\ List.length years = List.length titles.

Lemma project_dict_parallel (d : ProjectData) :
  parallel (lending d) -> parallel (non_lending d) -> parallel (ifc d) ->
  view_parallel (project_dict d) "lending_"
  /\ view_parallel (project_dict d) "non_lending_"
  /\ view_parallel (project_dict d) "ifc_"
  /\ view_parallel (project_dict d) "all_".
Proof.
  intros (L1 & L2 & L3) (N1 & N2 & N3) (I1 & I2 & I3).
  unfold view_parallel.
  repeat split.
  - do 4 eexists. simpl. repeat split; try reflexivity;
      rewrite !length_map; assumption.
  - do 4 eexists. simpl. repeat split; try reflexivity;
      rewrite !length_map; assumption.
  - do 4 eexists. simpl. repeat split; try reflexivity;
      rewrite !length_map; assumption.
  - do 4 eexists. simpl. repeat split; try reflexivity;
      unfold all_projects, all_project_codes, all_project_statuses,
        all_project_years;
      rewrite !length_map, !length_app; lia.
Qed.

Lemma empty_project_dict_parallel :
  view_parallel empty_project_dict "lending_"
  /\ view_parallel empty_project_dict "non_lending_"
  /\ view_parallel empty_project_dict "ifc_"
  /\ view_parallel empty_project_dict "all_".
Proof.
  unfold view_parallel.
  repeat split; exists [], [], [], []; simpl; repeat split; reflexivity.
Qed.

(** C1.  The four arrays of a category always have one length: the
    extractor of a category returns them so, with one element more in each
    for every item of a page that was read and all four empty after a
    failure; and in the result of the projects extractor the four arrays
    of each category and of the aggregate view have one length, the
    all-empty result of its failure path included. *)
Theorem parallel_arrays_equal_length :
  (forall project_type ui,
      parallel (_collect_project_type_data project_type ui))
  /\ (forall project_type acc items,
         match collect_items project_type acc items with
         | Ok acc' => grown_by (List.length items) acc acc'
         | Raise _ => True
         end)
  /\ (forall project_type ui,
         match collect_project_type_body project_type ui with
         | Ok d => _collect_project_type_data project_type ui = d
         | Raise _ =>
             _collect_project_type_data project_type ui
             = mkProjectTypeData [] [] [] []
         end)
  /\ (forall ui,
         view_parallel (scrape_projects ui) "lending_"
         /\ view_parallel (scrape_projects ui) "non_lending_"
         /\ view_parallel (scrape_projects ui) "ifc_"
         /\ view_parallel (scrape_projects ui) "all_").
Proof.
  split; [exact collect_project_type_parallel |].
  split.
  { intros project_type acc items.
    destruct (collect_items project_type acc items) eqn:H; [| exact I].
    eapply collect_items_grow; eauto. }
  split.
  { intros project_type ui. unfold _collect_project_type_data.
    destruct (collect_project_type_body project_type ui); reflexivity. }
  intros ui. unfold scrape_projects.
  destruct (scrape_project_data ui) as [d | e] eqn:H.
  - unfold scrape_project_data in H. bind_inv H. injection H as <-.
    apply project_dict_parallel; simpl; apply collect_project_type_parallel.
  - apply empty_project_dict_parallel.
Qed.

(** ** Project listings: the aggregate view *)

(** Under the keys of one kind of array ([projects], [project_codes],
    [project_statuses], [project_years]) the result [r] holds three
    category lists and, as the aggregate, their concatenation. *)
Definition aggregate_of (r : dict) (kind : string) : Prop :=
  exists a b c,
    list_at r ("lending_" ++ kind) = Some a
    /\ list_at r ("non_lending_" ++ kind) = Some b
    /\ list_at r ("ifc_" ++ kind) = Some c
    /\ list_at r ("all_" ++ kind) = Some (a ++ b ++ c).

Lemma project_dict_aggregate (d : ProjectData) :
  aggregate_of (project_dict d) "projects"
  /\ aggregate_of (project_dict d) "project_codes"
  /\ aggregate_of (project_dict d) "project_statuses"
  /\ aggregate_of (project_dict d) "project_years".
Proof.
  unfold aggregate_of.
  repeat split; do 3 eexists; simpl;
    (repeat split; try reflexivity).
  all: unfold list_at, project_dict; simpl;
    unfold strs, all_projects, all_project_codes, all_project_statuses,
      all_project_years;
    rewrite !map_app; reflexivity.
Qed.

(** C2.  In every [ProjectData] each aggregate array is the concatenation
    of the arrays of lending, non-lending and IFC, in that order; and so
    are the aggregate entries of what the projects extractor returns. *)
Theorem aggregate_is_concatenation :
  (forall d : ProjectData,
      all_projects d
      = projects (lending d) ++ projects (non_lending d) ++ projects (ifc d)
      /\ all_project_codes d
         = project_codes (lending d) ++ project_codes (non_lending d)
           ++ project_codes (ifc d)
      /\ all_project_statuses d
         = project_statuses (lending d) ++ project_statuses (non_lending d)
           ++ project_statuses (ifc d)
      /\ all_project_years d
         = project_years (lending d) ++ project_years (non_lending d)
           ++ project_years (ifc d))
  /\ (forall ui,
         aggregate_of (scrape_projects ui) "projects"
         /\ aggregate_of (scrape_projects ui) "project_codes"
         /\ aggregate_of (scrape_projects ui) "project_statuses"
         /\ aggregate_of (scrape_projects ui) "project_years").
Proof.
  split.
  - intros d. repeat split.
  - intros ui. unfold scrape_projects.
    destruct (scrape_project_data ui) as [d | e].
    + apply project_dict_aggregate.
    + unfold aggregate_of.
      repeat split; exists [], [], []; simpl; repeat split; reflexivity.
Qed.

(** ** Project listings: the code of an item *)

Definition only_digits (s : string) : bool :=
  forallb isdigit_char (list_ascii_of_string s).

(** In the words of the specification: a segment that is purely numeric
    and has at least 5 digits. *)
Definition numeric_of_5 (segment : string) : bool :=
  only_digits segment && (5 <=? length segment)%nat.

(** In the words of the specification: a segment that starts with the
    letter P, followed only by digits (there are digits, and nothing
    else). *)
Definition p_then_digits (segment : string) : bool :=
  match segment with
  | String c digits =>
      Ascii.eqb c "P" && negb (String.eqb digits "") && only_digits digits
  | EmptyString => false
  end.

Definition code_grammar (category : string) : string -> bool :=
  if String.eqb category "ifc" then numeric_of_5 else p_then_digits.

(** In the words of the specification: the first segment of the link,
    scanned from the end, that matches the grammar of the category, and
    the empty string when none does. *)
Definition code_of_link (category link : string) : string :=
  match find (code_grammar category) (rev (split_on slash link)) with
  | Some segment => segment
  | None => ""
  end.

Lemma all_digits_only_digits (s : string) : all_digits s = only_digits s.
Proof.
  unfold only_digits. induction s as [| c s IH]; simpl; [reflexivity |].
  now rewrite IH.
Qed.

Lemma isdigit_only_digits (s : string) :
  isdigit s = negb (String.eqb s "") && only_digits s.
Proof.
  destruct s as [| c s]; [reflexivity |].
  unfold isdigit. now rewrite all_digits_only_digits.
Qed.

Lemma startswith_P (c : ascii) (s : string) :
  startswith "P" (String c s) = Ascii.eqb c "P".
Proof.
  unfold startswith. cbn [String.prefix].
  destruct (ascii_dec "P" c) as [<- | ne].
  - now destruct s.
  - symmetry. apply Ascii.eqb_neq. congruence.
Qed.

Lemma code_matches_grammar (project_type part : string) :
  code_matches project_type part = code_grammar project_type part.
Proof.
  unfold code_matches, code_grammar.
  destruct (String.eqb project_type "ifc").
  - unfold numeric_of_5. rewrite isdigit_only_digits.
    destruct part as [| c s]; [reflexivity |]. reflexivity.
  - unfold p_then_digits.
    destruct part as [| c s]; [reflexivity |].
    rewrite startswith_P. cbn [tail1]. rewrite isdigit_only_digits.
    now rewrite andb_assoc.
Qed.

Lemma scan_parts_find (project_type : string) (parts : list string) :
  scan_parts project_type parts
  = match find (code_grammar project_type) parts with
    | Some segment => segment
    | None => ""
    end.
Proof.
  induction parts as [| part rest IH]; simpl; [reflexivity |].
  rewrite code_matches_grammar.
  destruct (code_grammar project_type part); [reflexivity | exact IH].
Qed.

Lemma derive_code_code_of_link (project_type href : string) :
  derive_code project_type href = code_of_link project_type href.
Proof.
  unfold derive_code, code_of_link.
  destruct (String.eqb href "") eqn:E.
  - apply String.eqb_eq in E. subst href. simpl.
    unfold code_grammar. now destruct (String.eqb project_type "ifc").
  - apply scan_parts_find.
Qed.

(** Searching a reversed list finds the last element that passes. *)
Lemma find_rev_last {A : Type} (f : A -> bool) (l : list A) :
  (find f (rev l) = None /\ forall x, In x l -> f x = false)
  \/ exists before x after,
       l = before ++ x :: after
       /\ f x = true
       /\ (forall y, In y after -> f y = false)
       /\ find f (rev l) = Some x.
Proof.
  induction l as [| a l IH] using rev_ind.
  - left. split; [reflexivity | intros x []].
  - rewrite rev_app_distr. cbn [rev app find].
    destruct (f a) eqn:Ea.
    + right. exists l, a, [].
      split; [reflexivity |]. split; [exact Ea |].
      split; [intros y [] | reflexivity].
    + destruct IH as [[Hnone Hall] | (before & x & after & -> & Hx & Hafter & Hfind)].
      * left. split; [exact Hnone |].
        intros x Hin. apply in_app_or in Hin.
        destruct Hin as [Hin | [<- | []]]; [now apply Hall | exact Ea].
      * right. exists before, x, (after ++ [a]). repeat split.
        -- now rewrite <- app_assoc.
        -- exact Hx.
        -- intros y Hin. apply in_app_or in Hin.
           destruct Hin as [Hin | [<- | []]]; [now apply Hafter | exact Ea].
        -- exact Hfind.
Qed.

(** C7.  The code derived from the link of a project item is the first
    path segment, scanned from the end of the link, that matches the
    grammar of the category: for IFC a purely numeric segment of at least
    5 digits, for the other categories the letter P followed only by
    digits; it is the empty string when no segment matches.  So either no
    segment of the link matches and the code is empty, or the code is a
    matching segment after which no segment matches. *)
Theorem code_is_first_matching_segment_from_end :
  forall project_type href,
    derive_code project_type href = code_of_link project_type href
    /\ ((derive_code project_type href = ""
         /\ forall segment,
              In segment (split_on slash href) ->
              code_grammar project_type segment = false)
        \/ exists before code after,
             split_on slash href = before ++ code :: after
             /\ code_grammar project_type code = true
             /\ (forall segment,
                    In segment after ->
                    code_grammar project_type segment = false)
             /\ derive_code project_type href = code).
Proof.
  intros project_type href.
  split; [apply derive_code_code_of_link |].
  rewrite derive_code_code_of_link. unfold code_of_link.
  destruct (find_rev_last (code_grammar project_type) (split_on slash href))
    as [[-> Hall] | (before & code & after & Hsplit & Hcode & Hafter & ->)].
  - left. split; [reflexivity | exact Hall].
  - right. exists before, code, after. repeat split; assumption.
Qed.

(** ** Bank experience: years in the bank *)

(** The entry has a start-date element, whose stripped text parses to
    [d]. *)
Definition starts_on (exp : experience) (d : datetime) : Prop :=
  exists text,
    sf_experience_from exp = Some text /\ strptime (strip text) = Some d.

Fixpoint strictly_decreasing (ds : list datetime) : Prop :=
  match ds with
  | a :: (b :: _) as rest => b < a /\ strictly_decreasing rest
  | _ => True
  end.

(** The running minimum that lines 184-185 keep in [bank_start]. *)
Definition earlier (b : option datetime) (d : datetime) : option datetime :=
  match b with
  | None => Some d
  | Some b => Some (Z.min b d)
  end.

Lemma bank_step_start (st : bank_state) (exp : experience) (d : datetime) :
  starts_on exp d ->
  exists st',
    bank_step st exp = Ok st' /\ bank_start st' = earlier (bank_start st) d.
Proof.
  intros (text & Hfrom & Hparse). unfold bank_step.
  rewrite Hfrom, Hparse. eexists. split; [reflexivity |]. simpl.
  destruct (bank_start st) as [b |]; simpl; [| reflexivity].
  destruct (d <? b) eqn:E; f_equal.
  - apply Z.ltb_lt in E. lia.
  - apply Z.ltb_ge in E. lia.
Qed.

Lemma bank_loop_start (exps : list experience) (ds : list datetime) :
  Forall2 starts_on exps ds ->
  forall st,
  exists st',
    bank_loop st exps = Ok st'
    /\ bank_start st' = fold_left earlier ds (bank_start st).
Proof.
  induction 1 as [| exp d exps ds Hd _ IH]; intros st; simpl.
  - eauto.
  - destruct (bank_step_start st exp d Hd) as (st1 & -> & H1). simpl.
    destruct (IH st1) as (st' & -> & H'). exists st'.
    split; [reflexivity |]. now rewrite H', H1.
Qed.

Lemma fold_earlier_decreasing (ds : list datetime) :
  forall d0,
    strictly_decreasing (d0 :: ds) ->
    fold_left earlier ds (Some d0) = Some (last (d0 :: ds) 0).
Proof.
  induction ds as [| d ds IH]; intros d0 H; [reflexivity |].
  destruct H as [Hlt H]. cbn [fold_left earlier].
  replace (Z.min d0 d) with d by lia.
  rewrite IH by exact H. reflexivity.
Qed.

Lemma last_of_decreasing_least (ds : list datetime) :
  forall d0,
    strictly_decreasing (d0 :: ds) ->
    forall d, In d (d0 :: ds) -> last (d0 :: ds) 0 <= d.
Proof.
  induction ds as [| d1 ds IH]; intros d0 H d Hin.
  - destruct Hin as [<- | []]. simpl. lia.
  - destruct H as [Hlt H].
    change (last (d0 :: d1 :: ds) 0) with (last (d1 :: ds) 0).
    destruct Hin as [<- | Hin].
    + specialize (IH d1 H d1 (or_introl eq_refl)). lia.
    + exact (IH d1 H d Hin).
Qed.

Lemma last_in_list (ds : list datetime) :
  forall d0, In (last (d0 :: ds) 0) (d0 :: ds).
Proof.
  induction ds as [| d1 ds IH]; intros d0.
  - now left.
  - right. apply IH.
Qed.

(** C3.  For a bank-experience sequence of N >= 1 entries whose start
    dates come in strictly decreasing order, [years_in_bank] is the number
    of whole days from the earliest start date to now, divided by 365.25
    and rounded to 2 decimals; the earliest date is that of the last
    entry. *)
Theorem years_in_bank_from_earliest_start
    (now : nat -> datetime) (exps : list experience) (ds : list datetime) :
  Forall2 starts_on exps ds ->
  exps <> [] ->
  strictly_decreasing ds ->
  let earliest := last ds 0 in
  (forall d, In d ds -> earliest <= d)
  /\ In earliest ds
  /\ exists r,
       _extract_bank_experience now exps = Ok r
       /\ dict_get r "years_in_bank"
          = Some (VFloat
                    (py_round2
                       (PrimFloat.div
                          (float_of_Z
                             ((now 2%nat - earliest) / microseconds_per_day))
                          365.25%float))).
Proof.
  intros Hparse Hne Hdec earliest.
  destruct Hparse as [| exp d0 exps ds Hd Hrest]; [contradiction |].
  split; [apply last_of_decreasing_least; exact Hdec |].
  split.
  { apply last_in_list. }
  unfold _extract_bank_experience.
  edestruct (bank_loop_start (exp :: exps) (d0 :: ds)) as (st & -> & Hstart).
  { constructor; eassumption. }
  eexists. split; [reflexivity |].
  cbn [dict_get String.eqb Ascii.eqb Bool.eqb].
  rewrite Hstart. cbn [bank_start fold_left earlier].
  rewrite fold_earlier_decreasing by exact Hdec.
  reflexivity.
Qed.

(** ** Sections without a tab *)

(** C5, as the code has it.  When the tab of a section is not on the page,
    its extractor returns at once and does not raise: the pre-bank
    extractor returns a list holding one empty item, the formal-education
    extractor returns null, and the documents extractor returns two empty
    lists. *)
Theorem absent_tab_sentinels
    (pb : pre_bank_ui) (ed : education_ui) (dc : documents_ui) :
  pre_bank_tab_count pb = 0%nat ->
  education_tab_count ed = 0%nat ->
  doc_tab dc = None ->
  _extract_pre_bank_experience pb
  = Ok [ ("pre_bank_experience", VList [VDict []]) ]
  /\ _extract_formal_education ed = Ok [ ("formal_education", VNone) ]
  /\ _extract_documents_and_reports dc
     = Ok [ ("documents_and_reports", VList []); ("document_ids", VList []) ].
Proof.
  intros Hpb Hed Hdc.
  unfold _extract_pre_bank_experience, _extract_formal_education,
    _extract_documents_and_reports.
  rewrite Hpb, Hed, Hdc. repeat split.
Qed.

(** ** Items with missing sub-fields *)












(** ** Document ids *)

Lemma ids_of_documents (docs : list dict) :
  forall ids,
    map_result (fun doc => getitem doc "id") docs = Ok ids ->
    Forall2 (fun doc id => dict_get doc "id" = Some id) docs ids.
Proof.
  induction docs as [| doc docs IH]; simpl; intros ids H.
  - injection H as <-. constructor.
  - do 2 bind_inv H. injection H as <-.
    constructor; [| now apply IH].
    unfold getitem in Ha. destruct (dict_get doc "id"); congruence.
Qed.

Lemma Forall2_nth_error {A B : Type} (R : A -> B -> Prop)
    (l : list A) (l' : list B) :
  Forall2 R l l' ->
  forall i a, nth_error l i = Some a ->
              exists b, nth_error l' i = Some b /\ R a b.
Proof.
  induction 1 as [| a0 b0 l l' HR _ IH]; intros i a Hi.
  - destruct i; discriminate.
  - destruct i as [| i]; simpl in *.
    + injection Hi as <-. eauto.
    + eauto.
Qed.

(** C9.  In every result of the documents-and-reports extractor,
    [document_ids] is as long as [documents_and_reports], and its i-th
    element is the [id] of the i-th document. *)
Theorem document_ids_match_documents (ui : documents_ui) (r : dict) :
  _extract_documents_and_reports ui = Ok r ->
  exists docs ids,
    dict_get r "documents_and_reports" = Some (VList (map VDict docs))
    /\ dict_get r "document_ids" = Some (VList ids)
    /\ List.length ids = List.length docs
    /\ forall i doc,
         nth_error docs i = Some doc ->
         exists id, nth_error ids i = Some id /\ dict_get doc "id" = Some id.
Proof.
  intros H. unfold _extract_documents_and_reports in H.
  assert (Hres : forall docs,
             documents_result docs = Ok r ->
             exists ids,
               dict_get r "documents_and_reports" = Some (VList (map VDict docs))
               /\ dict_get r "document_ids" = Some (VList ids)
               /\ Forall2 (fun doc id => dict_get doc "id" = Some id) docs ids).
  { intros docs Hd. unfold documents_result in Hd. bind_inv Hd.
    injection Hd as <-. exists a. repeat split. now apply ids_of_documents. }
  assert (Hfin : forall docs,
             documents_result docs = Ok r ->
             exists docs ids,
               dict_get r "documents_and_reports" = Some (VList (map VDict docs))
               /\ dict_get r "document_ids" = Some (VList ids)
               /\ List.length ids = List.length docs
               /\ forall i doc,
                    nth_error docs i = Some doc ->
                    exists id,
                      nth_error ids i = Some id /\ dict_get doc "id" = Some id).
  { intros docs Hd. destruct (Hres docs Hd) as (ids & H1 & H2 & H3).
    exists docs, ids. repeat split; try assumption.
    - symmetry. eapply Forall2_length; eauto.
    - intros i doc Hi. eapply Forall2_nth_error in H3; eauto. }
  destruct (doc_tab ui) as [click |].
  - bind_inv H.
    destruct (doc_wait_for_selector ui ;;;
              _click_see_all_and_wait_for_content (doc_view_all ui)).
    + bind_inv H. eapply Hfin; eauto.
    + injection H as <-. exists [], []. repeat split.
      intros [| i] doc Hi; discriminate.
  - eapply Hfin; eauto.
Qed.

(** ** Awards *)








(** ** Keys of merged dictionaries *)

Lemma has_key_keys (d : dict) (k : string) :
  has_key d k = existsb (fun k' => String.eqb k' k) (dict_keys d).
Proof.
  unfold has_key. induction d as [| [k' v] d IH]; simpl; [reflexivity |].
  destruct (String.eqb k' k); [reflexivity | exact IH].
Qed.

Lemma has_key_set (d : dict) (k : string) (v : pyval) (f : string) :
  has_key (dict_set d k v) f = has_key d f || String.eqb k f.
Proof.
  unfold has_key. induction d as [| [k' v'] d IH]; simpl.
  - now destruct (String.eqb k f).
  - destruct (String.eqb k' k) eqn:E; simpl.
    + apply String.eqb_eq in E. subst k'.
      destruct (String.eqb k f); simpl; [reflexivity |].
      now rewrite orb_false_r.
    + destruct (String.eqb k' f); [reflexivity | exact IH].
Qed.

Lemma has_key_update (e : dict) :
  forall d f, has_key (dict_update d e) f = has_key d f || has_key e f.
Proof.
  unfold dict_update.
  induction e as [| [k v] e IH]; intros d f; simpl.
  - now rewrite orb_false_r.
  - rewrite IH, has_key_set. unfold has_key at 4. simpl.
    destruct (String.eqb k f) eqn:E.
    + now rewrite !orb_true_r.
    + now rewrite orb_false_r.
Qed.

Lemma dict_get_set_other (d : dict) (k : string) (v : pyval) (f : string) :
  String.eqb k f = false -> dict_get (dict_set d k v) f = dict_get d f.
Proof.
  intros Hk. induction d as [| [k' v'] d IH]; simpl.
  - now rewrite Hk.
  - destruct (String.eqb k' k) eqn:E; simpl.
    + apply String.eqb_eq in E. subst k'. now rewrite Hk.
    + now rewrite IH.
Qed.

Lemma dict_get_update_other (e : dict) :
  forall d f,
    has_key e f = false -> dict_get (dict_update d e) f = dict_get d f.
Proof.
  unfold dict_update.
  induction e as [| [k v] e IH]; intros d f H; simpl; [reflexivity |].
  unfold has_key in H. simpl in H.
  destruct (String.eqb k f) eqn:E; [discriminate |].
  rewrite IH by exact H. now apply dict_get_set_other.
Qed.

(** ** The schema check *)



(** ** The extractors of this file always fill the schema *)

Definition ok {A : Type} (r : result A) : bool :=
  match r with
  | Ok _ => true
  | Raise _ => false
  end.

(** The keys of [dict_set d k v], from the keys of [d]. *)
Fixpoint keys_set (ks : list string) (k : string) : list string :=
  match ks with
  | [] => [k]
  | k' :: ks' => if String.eqb k' k then k' :: ks' else k' :: keys_set ks' k
  end.

Lemma dict_keys_set (d : dict) (k : string) (v : pyval) :
  dict_keys (dict_set d k v) = keys_set (dict_keys d) k.
Proof.
  induction d as [| [k' v'] d IH]; simpl; [reflexivity |].
  destruct (String.eqb k' k); simpl; [reflexivity | now rewrite IH].
Qed.

Lemma dict_keys_update (e : dict) :
  forall d,
    dict_keys (dict_update d e) = fold_left keys_set (dict_keys e) (dict_keys d).
Proof.
  unfold dict_update.
  induction e as [| [k v] e IH]; intros d; simpl; [reflexivity |].
  now rewrite IH, dict_keys_set.
Qed.

Lemma new_ProfileData_keys (d : dict) :
  dict_keys d = profile_fields ->
  new_ProfileData d = Ok (map (field_value d) profile_fields).
Proof.
  intros Hk. unfold new_ProfileData. rewrite Hk.
  assert (forallb (has_key d) profile_fields = true) as ->.
  { apply forallb_forall. intros f Hf. rewrite has_key_keys, Hk.
    revert f Hf. apply forallb_forall. vm_compute. reflexivity. }
  assert (forallb is_field profile_fields = true) as -> by (vm_compute; reflexivity).
  reflexivity.
Qed.

Lemma getitem_has_key (d : dict) (k : string) :
  has_key d k = true -> exists v, getitem d k = Ok v.
Proof.
  unfold has_key, getitem. destruct (dict_get d k); [eauto | discriminate].
Qed.

Lemma bank_step_ok (st st' : bank_state) (exp : experience) :
  ok (bank_step st exp) = ok (bank_step st' exp).
Proof.
  unfold bank_step.
  destruct (sf_experience_from exp) as [text |]; [| reflexivity].
  destruct (strptime (strip text)); reflexivity.
Qed.

Lemma bank_loop_ok (exps : list experience) :
  forall st st', ok (bank_loop st exps) = ok (bank_loop st' exps).
Proof.
  induction exps as [| exp rest IH]; intros st st'; simpl; [reflexivity |].
  pose proof (bank_step_ok st st' exp) as H.
  destruct (bank_step st exp), (bank_step st' exp); simpl in *;
    try discriminate; [apply IH | reflexivity].
Qed.

Lemma bank_experience_ok (now now' : nat -> datetime)
    (exps : list experience) :
  ok (_extract_bank_experience now exps)
  = ok (_extract_bank_experience now' exps).
Proof.
  unfold _extract_bank_experience.
  match goal with
  | |- ok (bind (bank_loop ?s exps) _) = ok (bind (bank_loop ?s' exps) _) =>
      pose proof (bank_loop_ok exps s s') as H;
      destruct (bank_loop s exps), (bank_loop s' exps)
  end; simpl in *; congruence.
Qed.

Lemma bank_experience_keys (now : nat -> datetime) (exps : list experience)
    (d : dict) :
  _extract_bank_experience now exps = Ok d ->
  dict_keys d
  = [ "years_in_current_position"; "years_in_fci"; "years_in_bank";
      "last_position"; "all_positions" ].
Proof.
  unfold _extract_bank_experience. intros H. bind_inv H.
  now injection H as <-.
Qed.

Lemma pre_bank_experience_keys (ui : pre_bank_ui) (d : dict) :
  _extract_pre_bank_experience ui = Ok d ->
  dict_keys d = ["pre_bank_experience"].
Proof.
  unfold _extract_pre_bank_experience. intros H.
  destruct (pre_bank_tab_count ui =? 0)%nat.
  - now injection H as <-.
  - do 2 bind_inv H. now injection H as <-.
Qed.

Lemma formal_education_keys (ui : education_ui) (d : dict) :
  _extract_formal_education ui = Ok d ->
  dict_keys d = ["formal_education"].
Proof.
  unfold _extract_formal_education. intros H.
  destruct (education_tab_count ui =? 0)%nat.
  - now injection H as <-.
  - do 3 bind_inv H. now injection H as <-.
Qed.

Lemma documents_and_reports_keys (ui : documents_ui) (d : dict) :
  _extract_documents_and_reports ui = Ok d ->
  dict_keys d = ["documents_and_reports"; "document_ids"].
Proof.
  unfold _extract_documents_and_reports. intros H.
  assert (Hres : forall docs, documents_result docs = Ok d ->
                 dict_keys d = ["documents_and_reports"; "document_ids"]).
  { intros docs Hd. unfold documents_result in Hd. bind_inv Hd.
    now injection Hd as <-. }
  destruct (doc_tab ui) as [click |]; [| eauto].
  bind_inv H.
  destruct (doc_wait_for_selector ui ;;;
            _click_see_all_and_wait_for_content (doc_view_all ui)).
  - bind_inv H. eauto.
  - now injection H as <-.
Qed.

Lemma scrape_projects_keys (ui : projects_ui) :
  dict_keys (scrape_projects ui) = dict_keys empty_project_dict.
Proof.
  unfold scrape_projects. now destruct (scrape_project_data ui).
Qed.

(** The steps of [scrape_profile] that can raise when it runs on the
    extractors of this file, in the order in which they run. *)
Definition fallible_steps (now : nat -> datetime) (page : profile_page)
    : result unit :=
  _wait_for_profile_load page ;;;
  click_visible (see_all_buttons page) ;;;
  _extract_bank_experience now (bank_experience page) ;;;
  _extract_pre_bank_experience (pre_bank page) ;;;
  _extract_formal_education (education page) ;;;
  _extract_documents_and_reports (documents page) ;;;
  _download_profile_image page VNone.

(** With the extractors of this file the schema check never fails: the
    orchestrator raises only what one of its steps raises, and the record
    it returns carries the name it was given. *)
Lemma scrape_profile_of_page (now : nat -> datetime) (name : string)
    (page : profile_page) :
  match fallible_steps now page with
  | Ok _ =>
      exists profile_data,
        scrape_profile (run_of_page now name page) = Ok profile_data
        /\ dict_get profile_data "name" = Some (VStr name)
  | Raise e => scrape_profile (run_of_page now name page) = Raise e
  end.
Proof.
  unfold fallible_steps, scrape_profile, run_of_page.
  cbn [run_wait_for_profile_load run_see_all_buttons run_basic_info
       run_bank_experience run_pre_bank_experience run_formal_education
       run_documents_and_reports run_expertise_and_skills run_awards
       run_download_profile_image run_scrape_projects].
  destruct (_wait_for_profile_load page); cbn [bind]; [| reflexivity].
  destruct (click_visible (see_all_buttons page)); cbn [bind]; [| reflexivity].
  destruct (_extract_bank_experience now (bank_experience page))
    as [d2 |] eqn:E2; cbn [bind]; [| reflexivity].
  destruct (_extract_pre_bank_experience (pre_bank page))
    as [d3 |] eqn:E3; cbn [bind]; [| reflexivity].
  destruct (_extract_formal_education (education page))
    as [d4 |] eqn:E4; cbn [bind]; [| reflexivity].
  destruct (_extract_documents_and_reports (documents page))
    as [d5 |] eqn:E5; cbn [bind]; [| reflexivity].
  apply bank_experience_keys in E2. apply pre_bank_experience_keys in E3.
  apply formal_education_keys in E4. apply documents_and_reports_keys in E5.
  set (d1 := _extract_basic_info name (basic page)).
  set (d6 := _extract_expertise_and_skills (expertise page)).
  set (d7 := _extract_awards (award_elements page)).
  set (d8 := scrape_projects (project_listings page)).
  set (m7 := dict_update _ d7).
  assert (K7 : dict_keys m7
               = firstn 22 profile_fields).
  { subst m7. rewrite !dict_keys_update, E2, E3, E4, E5. reflexivity. }
  assert (Hupi : has_key m7 "upi" = true).
  { rewrite has_key_keys, K7. reflexivity. }
  destruct (getitem_has_key _ _ Hupi) as [upi ->]. cbn [bind].
  assert (Hnew : exists profile_data,
             new_ProfileData (dict_update m7 d8) = Ok profile_data
             /\ dict_get profile_data "name" = Some (VStr name)).
  { assert (K8 : dict_keys (dict_update m7 d8) = profile_fields).
    { rewrite dict_keys_update, K7. subst d8.
      rewrite scrape_projects_keys. reflexivity. }
    rewrite (new_ProfileData_keys _ K8). eexists. split; [reflexivity |].
    unfold profile_fields. cbn [map]. unfold field_value at 1.
    cbn [dict_get String.eqb Ascii.eqb Bool.eqb].
    assert (dict_get (dict_update m7 d8) "name" = Some (VStr name)) as ->;
      [| reflexivity].
    rewrite dict_get_update_other
      by (rewrite has_key_keys; subst d8; rewrite scrape_projects_keys;
          reflexivity).
    subst m7.
    rewrite !dict_get_update_other
      by (rewrite has_key_keys;
          first [rewrite E2 | rewrite E3 | rewrite E4 | rewrite E5 | idtac];
          reflexivity).
    reflexivity. }
  unfold _download_profile_image.
  destruct (profile_img page) as [[[] | e] |]; cbn [bind];
    [exact Hnew | reflexivity | exact Hnew].
Qed.



(** ** Resuming a batch *)

(** What one turn of the loop does with a name that is not skipped. *)
Inductive turn_kind : Type :=
| Persist   (* the profile is scraped and appended to both files *)
| Missing   (* the name goes to the not-found file *)
| Abort.    (* an exception leaves the loop *)

Definition turn_kind_of (scraped_ok : bool) (ui : search_ui) (name : string)
    : turn_kind :=
  match open_search ui with
  | Raise _ => Abort
  | Ok _ =>
      match first_result_wait_for ui with
      | Raise TimeoutError => Missing
      | Raise _ => Abort
      | Ok _ =>
          match first_result_inner_text ui with
          | Raise _ => Abort
          | Ok first_result_text =>
              if negb (contains name first_result_text) then Missing
              else
                match first_result_click ui with
                | Raise _ => Abort
                | Ok _ => if scraped_ok then Persist else Abort
                end
          end
      end
  end.

Lemma search_and_scrape_kind (scraped : result ProfileData) (ui : search_ui)
    (name : string) (fs : files) :
  match turn_kind_of (ok scraped) ui name with
  | Persist =>
      exists profile_data,
        scraped = Ok profile_data
        /\ search_and_scrape scraped ui name fs
           = (save_profile_data_json profile_data
                (save_profile_data profile_data fs), Ok tt)
  | Missing =>
      search_and_scrape scraped ui name fs
      = (save_names_not_found name fs, Ok tt)
  | Abort => exists e, search_and_scrape scraped ui name fs = (fs, Raise e)
  end.
Proof.
  unfold turn_kind_of, search_and_scrape.
  destruct (open_search ui); [| eauto].
  destruct (first_result_wait_for ui) as [| []]; eauto.
  destruct (first_result_inner_text ui) as [text |]; [| eauto].
  destruct (negb (contains name text)); [reflexivity |].
  destruct (first_result_click ui); [| eauto].
  destruct scraped; simpl; eauto.
Qed.

Section Resume.

Variable site : string -> search_ui.
Variable pages : string -> profile_page.

Definition runs_at (now : nat -> nat -> datetime) (i : nat) (name : string)
    : profile_run :=
  run_of_page (now i) name (pages name).

(** What becomes of a name that is not skipped; the clock has no say. *)
Definition fate (name : string) : turn_kind :=
  turn_kind_of (ok (fallible_steps (fun _ => 0) (pages name)))
               (site name) name.

Lemma fallible_steps_ok (now now' : nat -> datetime) (page : profile_page) :
  ok (fallible_steps now page) = ok (fallible_steps now' page).
Proof.
  unfold fallible_steps.
  destruct (_wait_for_profile_load page); [| reflexivity].
  destruct (click_visible (see_all_buttons page)); [| reflexivity].
  cbn [bind].
  pose proof (bank_experience_ok now now' (bank_experience page)) as H.
  destruct (_extract_bank_experience now (bank_experience page)),
    (_extract_bank_experience now' (bank_experience page));
    simpl in *; congruence.
Qed.

Lemma scrape_profile_ok (now : nat -> datetime) (name : string) :
  ok (scrape_profile (run_of_page now name (pages name)))
  = ok (fallible_steps (fun _ => 0) (pages name)).
Proof.
  rewrite (fallible_steps_ok (fun _ => 0) now).
  pose proof (scrape_profile_of_page now name (pages name)) as H.
  destruct (fallible_steps now (pages name)).
  - destruct H as (p & -> & _). reflexivity.
  - now rewrite H.
Qed.

(** One turn of the loop on the extractors of this file. *)
Lemma turn_of_page (now : nat -> datetime) (name : string) (fs : files) :
  let scraped := scrape_profile (run_of_page now name (pages name)) in
  match fate name with
  | Persist =>
      exists profile_data,
        dict_get profile_data "name" = Some (VStr name)
        /\ search_and_scrape scraped (site name) name fs
           = (save_profile_data_json profile_data
                (save_profile_data profile_data fs), Ok tt)
  | Missing =>
      search_and_scrape scraped (site name) name fs
      = (save_names_not_found name fs, Ok tt)
  | Abort =>
      exists e, search_and_scrape scraped (site name) name fs = (fs, Raise e)
  end.
Proof.
  intros scraped. unfold fate.
  rewrite <- (scrape_profile_ok now name). fold scraped.
  pose proof (search_and_scrape_kind scraped (site name) name fs) as H.
  destruct (turn_kind_of (ok scraped) (site name) name); try exact H.
  destruct H as (p & Hp & H). exists p. split; [| exact H].
  pose proof (scrape_profile_of_page now name (pages name)) as Hs.
  subst scraped.
  destruct (fallible_steps now (pages name)).
  - destruct Hs as (p' & Hp' & Hname). congruence.
  - congruence.
Qed.

Lemma in_existing_app (name : string) (a b : list (option string)) :
  in_existing name (a ++ b) = in_existing name a || in_existing name b.
Proof. unfold in_existing. apply existsb_app. Qed.

Lemma in_existing_names (name : string) (ms : list string) :
  in_existing name (map Some ms) = true <-> In name ms.
Proof.
  unfold in_existing. rewrite existsb_exists. split.
  - intros (o & Hin & Ho). apply in_map_iff in Hin.
    destruct Hin as (m & <- & Hm). apply String.eqb_eq in Ho. now subst.
  - intros H. exists (Some name). split; [now apply in_map |].
    apply String.eqb_refl.
Qed.

Lemma row_get_map (p : dict) (k : string) :
  row_get (map (fun kv => (fst kv, csv_value (snd kv))) p) k
  = option_map csv_value (dict_get p k).
Proof.
  induction p as [| [k' v] p IH]; simpl; [reflexivity |].
  destruct (String.eqb k' k); [reflexivity | exact IH].
Qed.

(** The names that the index gains when a record is saved. *)
Lemma read_existing_saved (profile_data : ProfileData) (name : string)
    (fs : files) :
  dict_get profile_data "name" = Some (VStr name) ->
  read_existing_profiles
    (save_profile_data_json profile_data (save_profile_data profile_data fs))
  = read_existing_profiles fs
    ++ [Some (csv_read_back (csv_value (VStr name)))].
Proof.
  intros Hname. unfold read_existing_profiles. simpl.
  rewrite map_app. simpl. now rewrite row_get_map, Hname.
Qed.

(** The names of [names], gone through in a run that skips the names in
    [E0]: each name that the run persists is in [E1]. *)
Fixpoint persisted_known (E0 E1 : list (option string))
    (names : list string) : Prop :=
  match names with
  | [] => True
  | name :: rest =>
      if in_existing name E0 then persisted_known E0 E1 rest
      else
        match fate name with
        | Persist => in_existing name E1 = true /\ persisted_known E0 E1 rest
        | Missing => persisted_known E0 E1 rest
        | Abort => True
        end
  end.

(** The first run.  Its rows add to the index the names [ms] that it
    persisted, as long as each name reads back from its cell as it is. *)
Lemma first_run (now : nat -> nat -> datetime) (E0 : list (option string))
    (names : list string) :
  (forall name, In name names ->
                csv_read_back (csv_value (VStr name)) = name) ->
  forall i fs,
  exists ms,
    read_existing_profiles (fst (batch (runs_at now) site E0 i names fs))
    = read_existing_profiles fs ++ map Some ms
    /\ Forall (fun m => fate m = Persist) ms
    /\ forall E1,
         (forall m, In m ms -> in_existing m E1 = true) ->
         persisted_known E0 E1 names.
Proof.
  induction names as [| name rest IH]; intros Hback i fs.
  - exists []. simpl. rewrite app_nil_r. repeat split. constructor.
  - assert (Hrest : forall n, In n rest ->
                      csv_read_back (csv_value (VStr n)) = n)
      by (intros n Hn; apply Hback; now right).
    cbn [batch persisted_known].
    destruct (in_existing name E0) eqn:Hskip.
    + apply IH; exact Hrest.
    + unfold runs_at at 1.
      pose proof (turn_of_page (now i) name fs) as Hturn. cbv zeta in Hturn.
      destruct (fate name) eqn:Hfate.
      * destruct Hturn as (p & Hname & ->).
        destruct (IH Hrest (S i)
                    (save_profile_data_json p (save_profile_data p fs)))
          as (ms & Hread & Hms & Hknown).
        exists (name :: ms). split; [| split].
        -- rewrite Hread, (read_existing_saved p name fs Hname).
           rewrite Hback by now left. now rewrite <- app_assoc.
        -- constructor; assumption.
        -- intros E1 HE1. split.
           ++ apply HE1. now left.
           ++ apply Hknown. intros m Hm. apply HE1. now right.
      * rewrite Hturn.
        destruct (IH Hrest (S i) (save_names_not_found name fs))
          as (ms & Hread & Hms & Hknown).
        exists ms. repeat split; assumption.
      * destruct Hturn as (e & ->). exists []. simpl.
        rewrite app_nil_r. repeat split. constructor.
Qed.

(** The second run.  With every persisted name in its index, it appends
    nothing to the two profile files. *)
Lemma second_run (now : nat -> nat -> datetime) (E0 E1 : list (option string))
    (names : list string) :
  (forall name, in_existing name E0 = true -> in_existing name E1 = true) ->
  (forall name, in_existing name E1 = true -> in_existing name E0 = false ->
                fate name = Persist) ->
  persisted_known E0 E1 names ->
  forall i fs,
    persons_profiles_csv (fst (batch (runs_at now) site E1 i names fs))
    = persons_profiles_csv fs
    /\ persons_profiles_json (fst (batch (runs_at now) site E1 i names fs))
       = persons_profiles_json fs.
Proof.
  intros Hmono Hnew.
  induction names as [| name rest IH]; intros Hknown i fs; [now split |].
  cbn [batch persisted_known] in *.
  destruct (in_existing name E1) eqn:H1.
  - apply IH.
    destruct (in_existing name E0) eqn:H0; [exact Hknown |].
    rewrite (Hnew name H1 H0) in Hknown. apply Hknown.
  - destruct (in_existing name E0) eqn:H0.
    { rewrite (Hmono name H0) in H1. discriminate. }
    unfold runs_at at 1 3.
    pose proof (turn_of_page (now i) name fs) as Hturn. cbv zeta in Hturn.
    destruct (fate name).
    + destruct Hknown as [Hin _]. congruence.
    + rewrite Hturn. apply (IH Hknown (S i) (save_names_not_found name fs)).
    + destruct Hturn as (e & ->). now split.
Qed.

End Resume.

(** X27.  Resuming (the scope of C8).  The index of existing records holds
    the name column as it reads back from the CSV file, where a line feed
    or a carriage return is written escaped and a long value cut short.
    When every name of the work list reads back as it is, a second run of
    the batch over the same work list and the same pages appends no record:
    the two profile files stay as the first run left them.  The clock of
    the second run may differ. *)
Theorem resume_appends_nothing
    (now now' : nat -> nat -> datetime) (site : string -> search_ui)
    (pages : string -> profile_page) (staff_names : list string)
    (fs : files) :
  (forall name, In name staff_names ->
                csv_read_back (csv_value (VStr name)) = name) ->
  let once := fst (main now site pages staff_names fs) in
  let twice := fst (main now' site pages staff_names once) in
  persons_profiles_csv twice = persons_profiles_csv once
  /\ persons_profiles_json twice = persons_profiles_json once.
Proof.
  intros Hback once twice. subst once twice.
  unfold main, main_with.
  change (fun i name => run_of_page (now i) name (pages name))
    with (runs_at pages now).
  change (fun i name => run_of_page (now' i) name (pages name))
    with (runs_at pages now').
  destruct (first_run site pages now (read_existing_profiles fs)
              staff_names Hback 0%nat fs) as (ms & Hread & Hms & Hknown).
  set (once := fst (batch (runs_at pages now) site
                      (read_existing_profiles fs) 0 staff_names fs)) in *.
  apply (second_run site pages now' (read_existing_profiles fs)).
  - intros name H. rewrite Hread, in_existing_app, H. reflexivity.
  - intros name H1 H0. rewrite Hread, in_existing_app, H0 in H1.
    apply in_existing_names in H1.
    rewrite Forall_forall in Hms. now apply Hms.
  - apply Hknown. intros m Hm. rewrite Hread, in_existing_app.
    apply orb_true_iff. right. now apply in_existing_names.
Qed.

(** X28.  A name in the index is passed over: the loop goes on to the next
    name with the files untouched, and nothing of the search or of the page
    is consulted. *)
Lemma existing_name_skipped
    (runs runs' : nat -> string -> profile_run)
    (site site' : string -> search_ui)
    (existing_profiles : list (option string)) (i : nat) (name : string)
    (rest : list string) (fs : files) :
  in_existing name existing_profiles = true ->
  (forall j n, In n rest -> runs j n = runs' j n) ->
  (forall n, In n rest -> site n = site' n) ->
  batch runs site existing_profiles i (name :: rest) fs
  = batch runs' site' existing_profiles (S i) rest fs.
Proof.
  intros Hin Hruns Hsite. cbn [batch]. rewrite Hin.
  generalize (S i). clear Hin.
  revert fs. induction rest as [| n rest IH]; intros fs j; [reflexivity |].
  cbn [batch].
  rewrite <- (Hruns j n (or_introl eq_refl)),
          <- (Hsite n (or_introl eq_refl)).
  destruct (in_existing n existing_profiles).
  - apply IH; intros; [apply Hruns | apply Hsite]; now right.
  - destruct (search_and_scrape (scrape_profile (runs j n)) (site n) n fs)
      as [fs' [[] | e]]; [| reflexivity].
    apply IH; intros; [apply Hruns | apply Hsite]; now right.
Qed.

(** * Further properties *)

(** ** Project listings: what a successful run returns *)

(** The pages that the page loop reads: all up to the first one whose next
    button is missing or disabled. *)
Fixpoint pages_read (pgs : list listing_page) : list listing_page :=
  match pgs with
  | [] => []
  | pg :: rest =>
      if (0 <? next_button_count pg)%nat then pg :: pages_read rest else [pg]
  end.

(** The four values that the item loop appends for an item it reads
    without an exception. *)
Definition item_title (project : project_item) : string :=
  match title_text project with
  | Ok title => strip title
  | Raise _ => ""
  end.

Definition item_code (project_type : string) (project : project_item)
    : string :=
  match title_href project with
  | Ok (Some href) => derive_code project_type href
  | _ => ""
  end.

Definition item_status (project : project_item) : string :=
  match or_na (status_text project) with
  | Ok status => status
  | Raise _ => ""
  end.

Definition item_year (project : project_item) : string :=
  match or_na (year_text project) with
  | Ok year => year
  | Raise _ => ""
  end.

Lemma collect_item_appends (project_type : string) (acc acc' : ProjectTypeData)
    (project : project_item) :
  collect_item project_type acc project = Ok acc' ->
  projects acc' = projects acc ++ [item_title project]
  /\ project_codes acc' = project_codes acc ++ [item_code project_type project]
  /\ project_statuses acc' = project_statuses acc ++ [item_status project]
  /\ project_years acc' = project_years acc ++ [item_year project].
Proof.
  unfold collect_item, item_title, item_code, item_status, item_year.
  intros H. do 5 bind_inv H. injection H as <-. simpl.
  rewrite Ha, Ha0, Ha2, Ha3.
  destruct a0 as [href |]; [| discriminate].
  injection Ha1 as <-. repeat split.
Qed.

Lemma collect_items_append (project_type : string)
    (items : list project_item) :
  forall acc acc',
    collect_items project_type acc items = Ok acc' ->
    projects acc' = projects acc ++ map item_title items
    /\ project_codes acc'
       = project_codes acc ++ map (item_code project_type) items
    /\ project_statuses acc' = project_statuses acc ++ map item_status items
    /\ project_years acc' = project_years acc ++ map item_year items.
Proof.
  induction items as [| project rest IH]; simpl; intros acc acc' H.
  - injection H as <-. now rewrite !app_nil_r.
  - bind_inv H. apply collect_item_appends in Ha.
    destruct Ha as (E1 & E2 & E3 & E4).
    apply IH in H. destruct H as (-> & -> & -> & ->).
    rewrite E1, E2, E3, E4. now rewrite <- !app_assoc.
Qed.

Lemma collect_pages_append (project_type : string) (pgs : list listing_page) :
  forall page_number acc acc',
    collect_pages project_type page_number acc pgs = Ok acc' ->
    let items := flat_map accordion (pages_read pgs) in
    projects acc' = projects acc ++ map item_title items
    /\ project_codes acc'
       = project_codes acc ++ map (item_code project_type) items
    /\ project_statuses acc' = project_statuses acc ++ map item_status items
    /\ project_years acc' = project_years acc ++ map item_year items.
Proof.
  induction pgs as [| pg rest IH]; simpl; intros page_number acc acc' H.
  - discriminate.
  - do 2 bind_inv H. apply collect_items_append in Ha0.
    destruct Ha0 as (E1 & E2 & E3 & E4).
    destruct (0 <? next_button_count pg)%nat.
    + bind_inv H. apply IH in H. cbv zeta in H.
      destruct H as (-> & -> & -> & ->).
      rewrite E1, E2, E3, E4. cbn [flat_map].
      now rewrite !map_app, <- !app_assoc.
    + injection H as <-. cbn [flat_map]. rewrite app_nil_r.
      now rewrite E1, E2, E3, E4.
Qed.

(** X1.  When the listing of a category is read without an exception, the
    four arrays hold, for the items of the pages read and in the order of
    the pages and of the items on each page: the stripped title, the code
    derived from the link, and the status and the fiscal year, each of
    these two being N/A where its element is missing. *)
Theorem listing_read_in_page_order (project_type : string) (ui : listing_ui)
    (d : ProjectTypeData) :
  collect_project_type_body project_type ui = Ok d ->
  let items := flat_map accordion (pages_read (pages ui)) in
  _collect_project_type_data project_type ui = d
  /\ projects d = map item_title items
  /\ project_codes d = map (item_code project_type) items
  /\ project_statuses d = map item_status items
  /\ project_years d = map item_year items.
Proof.
  intros H items. split.
  { unfold _collect_project_type_data. now rewrite H. }
  unfold collect_project_type_body in H. do 6 bind_inv H.
  apply collect_pages_append in H. exact H.
Qed.

(** X2.  The page loop stops at the first page whose next button is
    missing or disabled: the pages after it are never looked at, whatever
    they hold. *)
Theorem pages_after_last_not_read (project_type : string)
    (pgs : list listing_page) :
  forall page_number acc,
    collect_pages project_type page_number acc pgs
    = collect_pages project_type page_number acc (pages_read pgs).
Proof.
  induction pgs as [| pg rest IH]; intros page_number acc; [reflexivity |].
  cbn [pages_read].
  destruct (0 <? next_button_count pg)%nat eqn:E.
  - cbn [collect_pages]. rewrite E.
    destruct (expect (current_has_text pg page_number)); [| reflexivity].
    cbn [bind].
    destruct (collect_items project_type acc (accordion pg)); [| reflexivity].
    cbn [bind]. destruct (next_button_click pg); [| reflexivity].
    cbn [bind]. apply IH.
  - cbn [collect_pages]. rewrite E. reflexivity.
Qed.


(** ** Bank experience: the other outputs *)

Definition dated (exp : experience) : bool :=
  match sf_experience_from exp with
  | Some _ => true
  | None => false
  end.

(** The start date of the entry, where its text parses. *)
Definition start_of (exp : experience) : option datetime :=
  match sf_experience_from exp with
  | Some text => strptime (strip text)
  | None => None
  end.

(** The line of [all_positions] for a dated entry (scraper.py 194). *)
Definition position_line (exp : experience) : string :=
  strip (text_or "" (sf_experience_from exp)) ++ ": "
  ++ text_or "" (sf_designation exp) ++ " - " ++ text_or "" (sf_units exp).

Lemma bank_loop_dated (exps : list experience) :
  forall st, bank_loop st exps = bank_loop st (filter dated exps).
Proof.
  induction exps as [| exp rest IH]; intros st; [reflexivity |].
  cbn [filter]. unfold dated at 1.
  destruct (sf_experience_from exp) as [text |] eqn:E.
  - cbn [bank_loop]. destruct (bank_step st exp); [apply IH | reflexivity].
  - cbn [bank_loop]. unfold bank_step. rewrite E. apply IH.
Qed.

(** X3.  An entry without a start-date element is passed over: the result
    is the one for the list of the dated entries alone. *)
Theorem dateless_entries_ignored (now : nat -> datetime)
    (exps : list experience) :
  _extract_bank_experience now exps
  = _extract_bank_experience now (filter dated exps).
Proof.
  unfold _extract_bank_experience. now rewrite bank_loop_dated.
Qed.

Lemma bank_step_outcome (st : bank_state) (exp : experience) :
  match bank_step st exp with
  | Ok _ => dated exp = false \/ start_of exp <> None
  | Raise e => e = ValueError /\ dated exp = true /\ start_of exp = None
  end.
Proof.
  unfold bank_step, dated, start_of.
  destruct (sf_experience_from exp) as [text |]; [| now left].
  destruct (strptime (strip text)); [right; discriminate | auto].
Qed.

Lemma bank_loop_outcome (exps : list experience) :
  forall st,
    match bank_loop st exps with
    | Ok _ =>
        Forall (fun exp => dated exp = false \/ start_of exp <> None) exps
    | Raise e =>
        e = ValueError
        /\ Exists (fun exp => dated exp = true /\ start_of exp = None) exps
    end.
Proof.
  induction exps as [| exp rest IH]; intros st; cbn [bank_loop].
  - constructor.
  - pose proof (bank_step_outcome st exp) as Hs.
    destruct (bank_step st exp) as [st1 | e]; cbn [bind].
    + specialize (IH st1). destruct (bank_loop st1 rest).
      * now constructor.
      * destruct IH as [-> Hex]. split; [reflexivity | now right].
    + destruct Hs as [-> Hs]. split; [reflexivity | now left].
Qed.

(** X4.  The bank-experience extractor raises exactly when some entry has
    a start-date element whose text does not parse, and then it raises
    [ValueError]; otherwise it returns its five entries. *)
Theorem bank_experience_raises_on_unparsable_date (now : nat -> datetime)
    (exps : list experience) :
  match _extract_bank_experience now exps with
  | Ok r =>
      Forall (fun exp => dated exp = false \/ start_of exp <> None) exps
      /\ dict_keys r
         = [ "years_in_current_position"; "years_in_fci"; "years_in_bank";
             "last_position"; "all_positions" ]
  | Raise e =>
      e = ValueError
      /\ Exists (fun exp => dated exp = true /\ start_of exp = None) exps
  end.
Proof.
  unfold _extract_bank_experience.
  match goal with |- context [bank_loop ?s exps] =>
    pose proof (bank_loop_outcome exps s) as H;
    destruct (bank_loop s exps) end; cbn [bind].
  - split; [exact H | reflexivity].
  - exact H.
Qed.

Lemma bank_loop_keeps_current (exps : list experience) :
  forall st st' c,
    current_position_start st = Some c ->
    bank_loop st exps = Ok st' ->
    current_position_start st' = Some c
    /\ last_position st' = last_position st.
Proof.
  induction exps as [| exp rest IH]; cbn [bank_loop]; intros st st' c Hc H.
  - injection H as <-. now split.
  - bind_inv H.
    assert (current_position_start a = Some c
            /\ last_position a = last_position st) as [Hc' Hl'].
    { unfold bank_step in Ha.
      destruct (sf_experience_from exp) as [text |].
      - destruct (strptime (strip text)); [| discriminate].
        injection Ha as <-. cbn. rewrite Hc. now split.
      - injection Ha as <-. now split. }
    destruct (IH a st' c Hc' H) as [H1 H2]. split; congruence.
Qed.

(** X5.  The current position is the first dated entry of the list: when
    the extractor returns, [years_in_current_position] counts from the
    start date of that entry to now, and [last_position] is its designation
    and unit, whatever entries follow. *)
Theorem current_position_is_first_dated_entry (now : nat -> datetime)
    (before : list experience) (exp : experience) (rest : list experience)
    (d : datetime) (r : dict) :
  Forall (fun e => dated e = false) before ->
  start_of exp = Some d ->
  _extract_bank_experience now (before ++ exp :: rest) = Ok r ->
  dict_get r "years_in_current_position"
  = Some (VFloat (years_between d (now 1%nat)))
  /\ dict_get r "last_position"
     = Some (VStr (text_or "" (sf_designation exp) ++ " - "
                   ++ text_or "" (sf_units exp))).
Proof.
  intros Hbefore Hd H. unfold _extract_bank_experience in H.
  rewrite bank_loop_dated, filter_app in H.
  assert (filter dated before = []) as Hnil.
  { clear H. induction Hbefore as [| e l He _ IH]; [reflexivity |].
    cbn [filter]. now rewrite He. }
  rewrite Hnil in H. cbn [app filter] in H.
  unfold start_of in Hd. unfold dated in H.
  destruct (sf_experience_from exp) as [text |] eqn:E; [| discriminate].
  cbn [bank_loop] in H.
  unfold bank_step at 1 in H. rewrite E, Hd in H. cbn [bind] in H.
  bind_inv H. injection H as <-.
  eapply bank_loop_keeps_current in Ha; [| reflexivity].
  destruct Ha as [-> ->].
  cbn [dict_get String.eqb Ascii.eqb Bool.eqb]. split; reflexivity.
Qed.

(** X6.  With no dated entry on the page the two tenures since a start
    date are the integer 0, the time in FCI is 0.0 and both texts are
    empty. *)
Theorem no_dated_entry_gives_zeros (now : nat -> datetime)
    (exps : list experience) :
  Forall (fun e => dated e = false) exps ->
  _extract_bank_experience now exps
  = Ok [ ("years_in_current_position", VInt 0);
         ("years_in_fci", VFloat 0%float);
         ("years_in_bank", VInt 0);
         ("last_position", VStr "");
         ("all_positions", VStr "") ].
Proof.
  intros H. unfold _extract_bank_experience. rewrite bank_loop_dated.
  assert (filter dated exps = []) as ->; [| reflexivity].
  induction H as [| e l He _ IH]; [reflexivity |].
  cbn [filter]. now rewrite He.
Qed.

Lemma bank_loop_positions (exps : list experience) :
  forall st st',
    bank_loop st exps = Ok st' ->
    all_positions st'
    = all_positions st ++ map position_line (filter dated exps).
Proof.
  induction exps as [| exp rest IH]; cbn [bank_loop]; intros st st' H.
  - injection H as <-. cbn. now rewrite app_nil_r.
  - bind_inv H. apply IH in H. rewrite H. clear H.
    unfold bank_step in Ha. cbn [filter]. unfold dated.
    destruct (sf_experience_from exp) as [text |] eqn:E.
    + destruct (strptime (strip text)); [| discriminate].
      injection Ha as <-. cbn [all_positions map].
      unfold position_line. rewrite E. cbn [text_or].
      now rewrite <- app_assoc.
    + injection Ha as <-. reflexivity.
Qed.

(** X7.  When the extractor returns, [all_positions] lists the dated
    entries in the order of the page, one line each (the stripped date
    text, the designation and the unit), joined by semicolons. *)
Theorem all_positions_in_page_order (now : nat -> datetime)
    (exps : list experience) (r : dict) :
  _extract_bank_experience now exps = Ok r ->
  dict_get r "all_positions"
  = Some (VStr (join "; " (map position_line (filter dated exps)))).
Proof.
  unfold _extract_bank_experience. intros H. bind_inv H.
  injection H as <-. apply bank_loop_positions in Ha.
  cbn [dict_get String.eqb Ascii.eqb Bool.eqb]. now rewrite Ha.
Qed.


(** What one dated entry adds to the time in FCI: when its unit names FCI,
    the years from its start to [next], the start of the entry before it
    on the page. *)
Definition fci_step (acc : float) (x : datetime * (datetime * experience))
    : float :=
  let '(next, (d, exp)) := x in
  if is_fci (text_or "" (sf_units exp))
  then PrimFloat.add acc (years_between d next)
  else acc.

(** The entries [exps] start on the dates [ds]; each is paired with the
    start of the entry before it, and the first one with [now0]. *)
Definition fci_years (now0 : datetime) (ds : list datetime)
    (exps : list experience) : float :=
  fold_left fci_step (combine (now0 :: ds) (combine ds exps)) 0%float.

Lemma bank_loop_fci (exps : list experience) (ds : list datetime) :
  Forall2 starts_on exps ds ->
  forall st,
  exists st',
    bank_loop st exps = Ok st'
    /\ years_in_fci st'
       = fold_left fci_step
           (combine (next_position_start_date st :: ds) (combine ds exps))
           (years_in_fci st).
Proof.
  induction 1 as [| exp d exps ds (text & Hfrom & Hparse) _ IH]; intros st.
  - exists st. now split.
  - cbn [bank_loop]. unfold bank_step at 1. rewrite Hfrom, Hparse.
    cbn [bind].
    match goal with |- context [bank_loop ?s exps] =>
      destruct (IH s) as (st' & -> & Hf) end.
    exists st'. split; [reflexivity |]. rewrite Hf.
    cbn [next_position_start_date years_in_fci combine fold_left fci_step].
    reflexivity.
Qed.

(** X8.  When every entry has a start date that parses, [years_in_fci] is
    the sum, taken in page order from 0.0, of one term for each entry
    whose unit names FCI: the years from the start of that entry to the
    start of the entry before it on the page, and to now for the first
    entry. *)
Theorem years_in_fci_between_consecutive_starts (now : nat -> datetime)
    (exps : list experience) (ds : list datetime) :
  Forall2 starts_on exps ds ->
  exists r,
    _extract_bank_experience now exps = Ok r
    /\ dict_get r "years_in_fci"
       = Some (VFloat (fci_years (now 0%nat) ds exps)).
Proof.
  intros H. unfold _extract_bank_experience.
  match goal with |- context [bank_loop ?s exps] =>
    destruct (bank_loop_fci exps ds H s) as (st' & -> & Hf) end.
  cbn [bind]. eexists. split; [reflexivity |].
  cbn [dict_get String.eqb Ascii.eqb Bool.eqb]. now rewrite Hf.
Qed.

Lemma bank_loop_no_fci (exps : list experience) :
  Forall (fun exp => is_fci (text_or "" (sf_units exp)) = false) exps ->
  forall st st',
    bank_loop st exps = Ok st' -> years_in_fci st' = years_in_fci st.
Proof.
  induction 1 as [| exp exps Hexp _ IH]; cbn [bank_loop]; intros st st' H.
  - now injection H as <-.
  - bind_inv H. rewrite (IH _ _ H). unfold bank_step in Ha.
    destruct (sf_experience_from exp) as [text |].
    + destruct (strptime (strip text)); [| discriminate].
      injection Ha as <-. cbn [years_in_fci]. now rewrite Hexp.
    + now injection Ha as <-.
Qed.

(** X9.  When no entry has a unit that names FCI, by its short or its long
    name, [years_in_fci] is 0.0. *)
Theorem no_fci_unit_no_fci_years (now : nat -> datetime)
    (exps : list experience) (r : dict) :
  Forall (fun exp => is_fci (text_or "" (sf_units exp)) = false) exps ->
  _extract_bank_experience now exps = Ok r ->
  dict_get r "years_in_fci" = Some (VFloat 0%float).
Proof.
  intros Hno H. unfold _extract_bank_experience in H. bind_inv H.
  injection H as <-. apply (bank_loop_no_fci exps Hno) in Ha.
  cbn [dict_get String.eqb Ascii.eqb Bool.eqb]. now rewrite Ha.
Qed.

(** ** Elapsed years *)

(** X10.  An interval of less than one day, from [start_date] on, counts
    as 0.0 years. *)
Theorem less_than_a_day_is_zero_years (start_date end_date : datetime) :
  start_date <= end_date < start_date + microseconds_per_day ->
  years_between start_date end_date = 0%float.
Proof.
  intros H. unfold years_between, delta_days.
  assert ((end_date - start_date) / microseconds_per_day = 0) as ->.
  { apply Z.div_small. unfold microseconds_per_day in *. lia. }
  vm_compute. reflexivity.
Qed.


(** ** The record constructor and the orchestrator *)

Lemma dict_get_field_values (d : dict) (fields : list string) (f : string) :
  In f fields ->
  dict_get (map (field_value d) fields) f
  = Some (match dict_get d f with Some v => v | None => VNone end).
Proof.
  induction fields as [| k fields IH]; intros Hin; [destruct Hin |].
  cbn [map field_value dict_get].
  destruct (String.eqb k f) eqn:E.
  - apply String.eqb_eq in E. now subst.
  - destruct Hin as [-> | Hin]; [| now apply IH].
    now rewrite String.eqb_refl in E.
Qed.

Lemma dict_keys_field_values (d : dict) (fields : list string) :
  dict_keys (map (field_value d) fields) = fields.
Proof.
  unfold dict_keys. rewrite map_map. cbn [field_value fst]. apply map_id.
Qed.

Lemma is_field_In (k : string) : is_field k = true <-> In k profile_fields.
Proof.
  unfold is_field. rewrite existsb_exists. split.
  - intros (f & Hin & E). apply String.eqb_eq in E. now subst.
  - intros H. exists k. split; [exact H | apply String.eqb_refl].
Qed.

Lemma new_ProfileData_returns_fields (profile_dict : dict)
    (profile_data : ProfileData) :
  new_ProfileData profile_dict = Ok profile_data ->
  dict_keys profile_data = profile_fields.
Proof.
  unfold new_ProfileData.
  destruct (forallb is_field (dict_keys profile_dict)
            && forallb (has_key profile_dict) profile_fields);
    [| discriminate].
  intros H. injection H as <-.
  exact (dict_keys_field_values profile_dict profile_fields).
Qed.

(** X11.  The constructor of the record accepts a dict exactly when its
    keys are the declared fields, none missing and none unknown; it then
    lists the fields in the order of declaration, each with the value of
    the dict.  Otherwise it raises [TypeError]. *)
Theorem record_constructor_checks_fields (profile_dict : dict) :
  match new_ProfileData profile_dict with
  | Ok profile_data =>
      (forall k, In k (dict_keys profile_dict) -> In k profile_fields)
      /\ (forall f, In f profile_fields -> has_key profile_dict f = true)
      /\ dict_keys profile_data = profile_fields
      /\ (forall f, In f profile_fields ->
                    dict_get profile_data f = dict_get profile_dict f)
  | Raise e =>
      e = TypeError
      /\ ((exists k, In k (dict_keys profile_dict) /\ ~ In k profile_fields)
          \/ exists f, In f profile_fields /\ has_key profile_dict f = false)
  end.
Proof.
  unfold new_ProfileData.
  destruct (forallb is_field (dict_keys profile_dict)) eqn:E1; cbn [andb].
  - destruct (forallb (has_key profile_dict) profile_fields) eqn:E2.
    + rewrite forallb_forall in E1, E2.
      split; [| split; [| split]].
      * intros k Hk. apply is_field_In. now apply E1.
      * exact E2.
      * apply dict_keys_field_values.
      * intros f Hf. rewrite dict_get_field_values by exact Hf.
        specialize (E2 f Hf). unfold has_key in E2.
        now destruct (dict_get profile_dict f).
    + split; [reflexivity |]. right.
      assert (H : ~ forallb (has_key profile_dict) profile_fields = true)
        by congruence.
      rewrite forallb_forall in H.
      induction profile_fields as [| f fields IH].
      * exfalso. apply H. intros x [].
      * destruct (has_key profile_dict f) eqn:Ef.
        -- destruct IH as (g & Hg & Hgf).
           ++ cbn [forallb] in E2. now rewrite Ef in E2.
           ++ intros Hall. apply H. intros x [<- | Hx]; auto.
           ++ exists g. split; [now right | exact Hgf].
        -- exists f. split; [now left | exact Ef].
  - split; [reflexivity |]. left.
    induction (dict_keys profile_dict) as [| k ks IH]; [discriminate |].
    cbn [forallb] in E1. destruct (is_field k) eqn:Ek.
    + destruct (IH E1) as (g & Hg & Hgf). exists g. split; [now right | exact Hgf].
    + exists k. split; [now left |]. intros Hin. apply is_field_In in Hin.
      congruence.
Qed.

(** X12.  Every record that the orchestrator returns, on whatever
    extractors it runs, has exactly the declared fields, in the order of
    declaration. *)
Theorem returned_record_has_declared_fields (r : profile_run)
    (profile_data : ProfileData) :
  scrape_profile r = Ok profile_data ->
  dict_keys profile_data = profile_fields.
Proof.
  unfold scrape_profile. intros H. do 12 bind_inv H.
  exact (new_ProfileData_returns_fields _ _ H).
Qed.

(** X13.  On the extractors of this file the orchestrator raises only what
    one of its steps raises: the page-load wait, a click on a See All
    button, the bank, pre-bank, education or documents extractor, or the
    screenshot.  Assembling the record never fails, and the record
    returned has the declared fields and carries the name that was
    given. *)
Theorem orchestrator_raises_only_step_failures (now : nat -> datetime)
    (name : string) (page : profile_page) :
  match fallible_steps now page with
  | Ok _ =>
      exists profile_data,
        scrape_profile (run_of_page now name page) = Ok profile_data
        /\ dict_keys profile_data = profile_fields
        /\ dict_get profile_data "name" = Some (VStr name)
  | Raise e => scrape_profile (run_of_page now name page) = Raise e
  end.
Proof.
  pose proof (scrape_profile_of_page now name page) as H.
  destruct (fallible_steps now page); [| exact H].
  destruct H as (p & Hp & Hname). exists p.
  split; [exact Hp |]. split; [| exact Hname].
  unfold scrape_profile in Hp. do 12 bind_inv Hp.
  exact (new_ProfileData_returns_fields _ _ Hp).
Qed.


(** ** The closed schema of the record *)

(** scraper.py 51-54, [ProfileData.__setattr__]: a name that is no declared
    field raises [AttributeError]; a field takes the value, in its place. *)
Definition ProfileData_setattr (self : ProfileData) (name : string)
    (value : pyval) : result ProfileData :=
  if negb (is_field name) then Raise AttributeError
  else Ok (dict_set self name value).

(** scraper.py 56-58, [ProfileData.update]: the record as the call leaves
    it, and how the call ends. *)
Fixpoint ProfileData_update (self : ProfileData) (data : dict)
    : ProfileData * result unit :=
  match data with
  | [] => (self, Ok tt)
  | (key, value) :: rest =>
      match ProfileData_setattr self key value with
      | Ok self' => ProfileData_update self' rest
      | Raise e => (self, Raise e)
      end
  end.

Lemma keys_set_present (ks : list string) (k : string) :
  In k ks -> keys_set ks k = ks.
Proof.
  induction ks as [| k' ks IH]; intros Hin; [destruct Hin |].
  cbn [keys_set]. destruct (String.eqb k' k) eqn:E; [reflexivity |].
  destruct Hin as [-> | Hin].
  - now rewrite String.eqb_refl in E.
  - now rewrite IH.
Qed.

Lemma dict_update_app (d e1 e2 : dict) :
  dict_update d (e1 ++ e2) = dict_update (dict_update d e1) e2.
Proof. unfold dict_update. apply fold_left_app. Qed.

(** X14.  [update] assigns the pairs of [data] in order.  When every key
    is a declared field it ends normally, having done what [dict.update]
    does, and a record with all its fields keeps them in place.  At the
    first key that is no field it raises [AttributeError], the pairs before
    that key staying assigned and the later ones not. *)
Theorem update_assigns_until_unknown_key (self : ProfileData) (data : dict) :
  (forallb is_field (dict_keys data) = true ->
   ProfileData_update self data = (dict_update self data, Ok tt)
   /\ (dict_keys self = profile_fields ->
       dict_keys (dict_update self data) = profile_fields))
  /\ (forall before key value after,
         data = before ++ (key, value) :: after ->
         forallb is_field (dict_keys before) = true ->
         is_field key = false ->
         ProfileData_update self data
         = (dict_update self before, Raise AttributeError)).
Proof.
  split.
  - revert self. induction data as [| [k v] data IH]; intros self H.
    + split; [reflexivity | auto].
    + cbn [dict_keys map fst forallb] in H. apply andb_true_iff in H.
      destruct H as [Hk H]. cbn [ProfileData_update].
      unfold ProfileData_setattr. rewrite Hk. cbn [negb].
      destruct (IH (dict_set self k v) H) as [-> Hkeys].
      split; [reflexivity |]. intros Hself.
      change (dict_update self ((k, v) :: data))
        with (dict_update (dict_set self k v) data).
      apply Hkeys. rewrite dict_keys_set, Hself.
      apply keys_set_present. now apply is_field_In.
  - intros before key value after -> Hbefore Hkey. revert self.
    induction before as [| [k v] before IH]; intros self.
    + cbn [app ProfileData_update]. unfold ProfileData_setattr.
      now rewrite Hkey.
    + cbn [dict_keys map fst forallb] in Hbefore.
      apply andb_true_iff in Hbefore. destruct Hbefore as [Hk Hbefore].
      cbn [app ProfileData_update]. unfold ProfileData_setattr.
      rewrite Hk. cbn [negb]. now rewrite (IH Hbefore).
Qed.

(** ** The text of a CSV cell *)

Fixpoint has_char (c : ascii) (s : string) : bool :=
  match s with
  | EmptyString => false
  | String a s' => Ascii.eqb a c || has_char c s'
  end.

Lemma has_char_append (c : ascii) (s t : string) :
  has_char c (s ++ t) = has_char c s || has_char c t.
Proof.
  induction s as [| a s IH]; [reflexivity |].
  cbn [append has_char]. now rewrite IH, orb_assoc.
Qed.

Lemma has_char_substring (c : ascii) (s : string) :
  forall n m, has_char c s = false -> has_char c (substring n m s) = false.
Proof.
  induction s as [| a s IH]; intros n m H.
  - now destruct n, m.
  - cbn [has_char] in H. apply orb_false_iff in H. destruct H as [Ha Hs].
    destruct n as [| n]; destruct m as [| m]; cbn [substring];
      try reflexivity; try now apply IH.
    cbn [has_char]. rewrite Ha. now apply IH.
Qed.

Lemma replace_char_removes (c : ascii) (by_ s : string) :
  has_char c by_ = false -> has_char c (replace_char c by_ s) = false.
Proof.
  intros Hby. induction s as [| a s IH]; [reflexivity |].
  cbn [replace_char]. rewrite has_char_append, IH, orb_false_r.
  destruct (Ascii.eqb a c) eqn:E; [exact Hby |].
  cbn [has_char]. now rewrite E.
Qed.

Lemma replace_char_keeps_out (c x : ascii) (by_ s : string) :
  has_char x by_ = false -> has_char x s = false ->
  has_char x (replace_char c by_ s) = false.
Proof.
  intros Hby. induction s as [| a s IH]; intros Hs; [reflexivity |].
  cbn [has_char] in Hs. apply orb_false_iff in Hs. destruct Hs as [Ha Hs].
  cbn [replace_char]. rewrite has_char_append, (IH Hs), orb_false_r.
  destruct (Ascii.eqb a c); [exact Hby |].
  cbn [has_char]. now rewrite Ha.
Qed.

Lemma replace_char_absent (c : ascii) (by_ s : string) :
  has_char c s = false -> replace_char c by_ s = s.
Proof.
  induction s as [| a s IH]; intros H; [reflexivity |].
  cbn [has_char] in H. apply orb_false_iff in H. destruct H as [Ha Hs].
  cbn [replace_char]. rewrite Ha, (IH Hs). reflexivity.
Qed.

Lemma substring_length_le (s : string) :
  forall m, (length (substring 0 m s) <= m)%nat.
Proof.
  induction s as [| a s IH]; intros [| m]; cbn [substring length]; try lia.
  specialize (IH m). lia.
Qed.

Lemma append_length (s t : string) :
  length (s ++ t) = (length s + length t)%nat.
Proof.
  induction s as [| a s IH]; [reflexivity |].
  cbn [append length]. now rewrite IH.
Qed.

(** X15.  The value that [save_profile_data] hands to the CSV writer for a
    field has no line feed and no carriage return in it, and is at most
    32015 characters long: 32000 of the text of the field and the mark of
    truncation.  The cell in the file can be longer, the writer putting a
    backslash before every backslash and doubling every quote. *)
Theorem csv_value_single_line_and_bounded (v : pyval) :
  has_char LF (csv_value v) = false
  /\ has_char CR (csv_value v) = false
  /\ Z.of_nat (length (csv_value v)) <= 32015.
Proof.
  unfold csv_value.
  set (value := replace_char CR "\r" (replace_char LF "\n" (str v))).
  assert (HLF : has_char LF value = false).
  { subst value. apply replace_char_keeps_out; [reflexivity |].
    now apply replace_char_removes. }
  assert (HCR : has_char CR value = false).
  { subst value. now apply replace_char_removes. }
  destruct (32000 <? Z.of_nat (length value)) eqn:E.
  - rewrite !has_char_append, !has_char_substring by assumption.
    split; [reflexivity |]. split; [reflexivity |].
    rewrite append_length.
    pose proof (substring_length_le value (Z.to_nat 32000)) as Hl.
    change (length "... (truncated)") with 15%nat. lia.
  - apply Z.ltb_ge in E. repeat split; assumption || lia.
Qed.

(** X16.  A text of at most 32000 characters without line feed and
    carriage return is handed to the CSV writer as it is. *)
Theorem csv_value_of_plain_text (s : string) :
  has_char LF s = false ->
  has_char CR s = false ->
  Z.of_nat (length s) <= 32000 ->
  csv_value (VStr s) = s.
Proof.
  intros HLF HCR Hlen. unfold csv_value. cbn [str].
  rewrite (replace_char_absent LF) by exact HLF.
  rewrite (replace_char_absent CR) by exact HCR.
  apply Z.ltb_ge in Hlen. now rewrite Hlen.
Qed.


(** ** Splitting and joining *)

Lemma split_on_not_nil (sep : ascii) (s : string) : split_on sep s <> [].
Proof.
  destruct s as [| c s]; cbn [split_on]; [discriminate |].
  destruct (Ascii.eqb c sep); [discriminate |].
  destruct (split_on sep s); discriminate.
Qed.

Lemma split_on_parts (sep : ascii) (s : string) :
  Forall (fun part => has_char sep part = false) (split_on sep s).
Proof.
  induction s as [| c s IH]; cbn [split_on].
  - now constructor.
  - destruct (Ascii.eqb c sep) eqn:E.
    + now constructor.
    + destruct (split_on sep s) as [| seg segs].
      * constructor; [| constructor]. cbn [has_char]. now rewrite E.
      * inversion IH as [| ? ? Hseg Hsegs]; subst.
        constructor; [| exact Hsegs]. cbn [has_char]. now rewrite E.
Qed.

Lemma join_split_on (sep : ascii) (s : string) :
  join (String sep "") (split_on sep s) = s.
Proof.
  induction s as [| c s IH]; [reflexivity |].
  cbn [split_on]. pose proof (split_on_not_nil sep s) as Hne.
  destruct (Ascii.eqb c sep) eqn:E.
  - apply Ascii.eqb_eq in E. subst c.
    destruct (split_on sep s) as [| seg segs]; [contradiction |].
    cbn [join append] in *. now rewrite IH.
  - destruct (split_on sep s) as [| seg segs]; [contradiction |].
    destruct segs; cbn [join append] in *; now rewrite <- IH.
Qed.

Lemma split_on_plain (sep : ascii) (s : string) :
  has_char sep s = false -> split_on sep s = [s].
Proof.
  induction s as [| c s IH]; intros H; [reflexivity |].
  cbn [has_char] in H. apply orb_false_iff in H. destruct H as [Hc Hs].
  cbn [split_on]. now rewrite Hc, (IH Hs).
Qed.

Lemma split_on_first (sep : ascii) (a b : string) :
  has_char sep a = false ->
  split_on sep (a ++ String sep b)%string = a :: split_on sep b.
Proof.
  induction a as [| c a IH]; intros H.
  - cbn [append split_on]. now rewrite Ascii.eqb_refl.
  - cbn [has_char] in H. apply orb_false_iff in H. destruct H as [Hc Ha].
    cbn [append split_on]. now rewrite Hc, (IH Ha).
Qed.

Lemma has_char_join (c : ascii) (sep : string) (l : list string) :
  has_char c sep = false ->
  Forall (fun part => has_char c part = false) l ->
  has_char c (join sep l) = false.
Proof.
  intros Hsep H. induction H as [| s l Hs Hl IH]; [reflexivity |].
  destruct l as [| s' l]; [exact Hs |].
  change (join sep (s :: s' :: l)) with (s ++ sep ++ join sep (s' :: l))%string.
  now rewrite !has_char_append, Hs, Hsep, IH.
Qed.

(** The length of a joined list: the parts and one separator between each
    two. *)
Fixpoint joined_length (sep_length : nat) (l : list string) : nat :=
  match l with
  | [] => 0
  | [s] => length s
  | s :: l' => length s + sep_length + joined_length sep_length l'
  end.

Lemma join_length (sep : string) (l : list string) :
  length (join sep l) = joined_length (length sep) l.
Proof.
  induction l as [| s l IH]; [reflexivity |].
  destruct l as [| s' l]; [reflexivity |].
  change (join sep (s :: s' :: l)) with (s ++ sep ++ join sep (s' :: l))%string.
  rewrite !append_length, IH. cbn [joined_length]. lia.
Qed.

Lemma joined_length_sum (n : nat) (l : list string) :
  (joined_length n l + n
   = fold_right (fun s acc => length s + n + acc) 0 l
     + match l with [] => n | _ => 0 end)%nat.
Proof.
  induction l as [| s l IH]; [cbn; lia |].
  destruct l as [| s' l]; [cbn; lia |].
  cbn [joined_length fold_right] in *. lia.
Qed.

Lemma joined_length_rev (n : nat) (l : list string) :
  joined_length n (rev l) = joined_length n l.
Proof.
  assert (H : forall l : list string,
             fold_right (fun s acc => length s + n + acc)%nat 0%nat (rev l)
             = fold_right (fun s acc => length s + n + acc)%nat 0%nat l).
  { intros l0. induction l0 as [| s l0 IH]; [reflexivity |].
    cbn [rev fold_right]. rewrite fold_right_app. cbn [fold_right].
    rewrite <- IH. generalize (rev l0). intros m.
    induction m as [| t m IHm]; cbn [fold_right]; lia. }
  pose proof (joined_length_sum n l) as H1.
  pose proof (joined_length_sum n (rev l)) as H2.
  rewrite H in H2.
  assert (match rev l with [] => n | _ => 0%nat end
          = match l with [] => n | _ => 0%nat end) as E.
  { destruct l as [| s l]; [reflexivity |]. cbn [rev].
    now destruct (rev l). }
  lia.
Qed.

(** ** The work list ([read_staff_names]) *)

(** data_processing.py 14: the parts of the name between commas, in
    reverse order and joined by spaces. *)
Definition reorder_name (name : string) : string :=
  join " " (rev (split_on ","%char name)).

(** data_processing.py 13: the stripped first cell of every row; [None]
    where [row[0]] raises [IndexError], the row being empty. *)
Fixpoint first_cells (rows : list (list string)) : option (list string) :=
  match rows with
  | [] => Some []
  | [] :: _ => None
  | (cell :: _) :: rest =>
      match first_cells rest with
      | Some cells => Some (strip cell :: cells)
      | None => None
      end
  end.

(** data_processing.py 10-14, on the rows that [csv.reader] yields; the
    first row is the header. *)
Definition read_staff_names (rows : list (list string))
    : option (list string) :=
  match first_cells rows with
  | Some cells => Some (map reorder_name (tl cells))
  | None => None
  end.

Lemma first_cells_outcome (rows : list (list string)) :
  match first_cells rows with
  | Some cells =>
      Forall (fun row => row <> []) rows /\ List.length cells = List.length rows
  | None => Exists (fun row => row = []) rows
  end.
Proof.
  induction rows as [| row rows IH]; cbn [first_cells].
  - split; [constructor | reflexivity].
  - destruct row as [| cell row]; [now left |].
    destruct (first_cells rows) as [cells |].
    + destruct IH as [Hall Hlen]. split.
      * constructor; [discriminate | exact Hall].
      * cbn [List.length]. now rewrite Hlen.
    + now right.
Qed.

(** X17.  The work list has one name for every row after the header.  An
    empty row anywhere in the file, the header included, makes the read
    fail with [IndexError]. *)
Theorem staff_names_one_per_row_after_header (rows : list (list string)) :
  match read_staff_names rows with
  | Some names =>
      Forall (fun row => row <> []) rows
      /\ List.length names = (List.length rows - 1)%nat
  | None => Exists (fun row => row = []) rows
  end.
Proof.
  unfold read_staff_names.
  pose proof (first_cells_outcome rows) as H.
  destruct (first_cells rows) as [cells |]; [| exact H].
  destruct H as [Hall Hlen]. split; [exact Hall |].
  rewrite length_map, <- Hlen. destruct cells; cbn; lia.
Qed.

(** X18.  A name is rewritten with its comma-separated parts in reverse
    order and a space for every comma: the result has no comma and the
    length of the name; a name without a comma is left as it is, and
    [last,first] becomes [first last]. *)
Theorem reorder_name_swaps_around_commas (name : string) :
  has_char ","%char (reorder_name name) = false
  /\ length (reorder_name name) = length name
  /\ (has_char ","%char name = false -> reorder_name name = name)
  /\ (forall last first,
         name = (last ++ String ","%char first)%string ->
         has_char ","%char last = false ->
         has_char ","%char first = false ->
         reorder_name name = (first ++ " " ++ last)%string).
Proof.
  unfold reorder_name. split; [| split; [| split]].
  - apply has_char_join; [reflexivity |].
    apply Forall_rev. apply split_on_parts.
  - rewrite join_length, joined_length_rev.
    change (length " ") with (length (String ","%char "")).
    rewrite <- join_length. now rewrite join_split_on.
  - intros H. now rewrite split_on_plain.
  - intros last first -> Hl Hf.
    rewrite split_on_first by exact Hl.
    now rewrite (split_on_plain _ first Hf).
Qed.


(** ** The batch: what a run writes *)

(** The CSV row of a record (data_processing.py 27-34). *)
Definition csv_row (profile_data : ProfileData) : list (string * string) :=
  map (fun kv => (fst kv, csv_value (snd kv))) profile_data.

(** [l] is [l'] with some elements left out. *)
Inductive subseq {A : Type} : list A -> list A -> Prop :=
| subseq_nil : subseq [] []
| subseq_skip (x : A) (l l' : list A) : subseq l l' -> subseq l (x :: l')
| subseq_take (x : A) (l l' : list A) : subseq l l' -> subseq (x :: l) (x :: l').

Lemma subseq_nil_l {A : Type} (l : list A) : subseq [] l.
Proof. induction l; constructor; assumption. Qed.

(** X19.  A run of the batch only appends to its three files.  The CSV
    file and the JSON file gain the same records, in the same order, the
    CSV file holding the row of each.  The names added to the not-found
    file are names of the work list that the index does not hold, in the
    order of the work list. *)
Theorem batch_only_appends (runs : nat -> string -> profile_run)
    (site : string -> search_ui) (existing_profiles : list (option string))
    (staff_names : list string) :
  forall i fs,
  exists records not_found,
    let fs' := fst (batch runs site existing_profiles i staff_names fs) in
    persons_profiles_csv fs' = persons_profiles_csv fs ++ map csv_row records
    /\ persons_profiles_json fs' = persons_profiles_json fs ++ records
    /\ persons_not_found_csv fs' = persons_not_found_csv fs ++ not_found
    /\ subseq not_found staff_names
    /\ Forall (fun name => in_existing name existing_profiles = false)
              not_found.
Proof.
  induction staff_names as [| name rest IH]; intros i fs.
  - exists [], []. cbn. rewrite !app_nil_r. repeat split; constructor.
  - cbn [batch]. destruct (in_existing name existing_profiles) eqn:Hin.
    + destruct (IH (S i) fs) as (recs & nf & H1 & H2 & H3 & H4 & H5).
      exists recs, nf. repeat split; try assumption. now constructor.
    + pose proof (search_and_scrape_kind (scrape_profile (runs i name))
                    (site name) name fs) as Hk.
      destruct (turn_kind_of (ok (scrape_profile (runs i name)))
                  (site name) name).
      * destruct Hk as (p & _ & ->).
        destruct (IH (S i) (save_profile_data_json p (save_profile_data p fs)))
          as (recs & nf & H1 & H2 & H3 & H4 & H5).
        exists (p :: recs), nf. cbv zeta in *.
        rewrite H1, H2, H3. cbn [save_profile_data_json save_profile_data
          persons_profiles_csv persons_profiles_json persons_not_found_csv map].
        rewrite <- !app_assoc. repeat split; try assumption.
        now constructor.
      * rewrite Hk.
        destruct (IH (S i) (save_names_not_found name fs))
          as (recs & nf & H1 & H2 & H3 & H4 & H5).
        exists recs, (name :: nf). cbv zeta in *.
        rewrite H1, H2, H3. cbn [save_names_not_found
          persons_profiles_csv persons_profiles_json persons_not_found_csv].
        rewrite <- !app_assoc. repeat split; try assumption.
        -- now constructor.
        -- now constructor.
      * destruct Hk as (e & ->). exists [], []. cbn. rewrite !app_nil_r.
        repeat split; [apply subseq_nil_l | constructor].
Qed.

(** X20.  The records that a run of [main] persists belong to names of the
    work list that the index does not hold, one record for each such name
    gone through and found, in the order of the work list; each record
    carries its name. *)
Theorem records_in_work_list_order
    (now : nat -> nat -> datetime) (site : string -> search_ui)
    (pages : string -> profile_page) (staff_names : list string)
    (fs : files) :
  exists records names,
    persons_profiles_json (fst (main now site pages staff_names fs))
    = persons_profiles_json fs ++ records
    /\ map (fun d => dict_get d "name") records
       = map (fun name => Some (VStr name)) names
    /\ subseq names staff_names
    /\ Forall (fun name =>
                 in_existing name (read_existing_profiles fs) = false)
              names.
Proof.
  unfold main, main_with.
  change (fun i name => run_of_page (now i) name (pages name))
    with (runs_at pages now).
  generalize (read_existing_profiles fs) as E. intros E.
  generalize 0%nat as i. revert fs.
  induction staff_names as [| name rest IH]; intros fs i.
  - exists [], []. cbn. rewrite app_nil_r. repeat split; constructor.
  - cbn [batch]. destruct (in_existing name E) eqn:Hin.
    + destruct (IH fs (S i)) as (recs & ms & H1 & H2 & H3 & H4).
      exists recs, ms. repeat split; try assumption. now constructor.
    + unfold runs_at at 1.
      pose proof (turn_of_page site pages (now i) name fs) as Hturn.
      cbv zeta in Hturn.
      destruct (fate site pages name).
      * destruct Hturn as (p & Hname & ->).
        destruct (IH (save_profile_data_json p (save_profile_data p fs))
                     (S i)) as (recs & ms & H1 & H2 & H3 & H4).
        exists (p :: recs), (name :: ms). rewrite H1.
        cbn [save_profile_data_json persons_profiles_json map].
        rewrite <- app_assoc, Hname, H2. repeat split.
        -- now constructor.
        -- now constructor.
      * rewrite Hturn.
        destruct (IH (save_names_not_found name fs) (S i))
          as (recs & ms & H1 & H2 & H3 & H4).
        exists recs, ms. repeat split; try assumption. now constructor.
      * destruct Hturn as (e & ->). exists [], []. cbn.
        rewrite app_nil_r. repeat split; [apply subseq_nil_l | constructor].
Qed.

(** X21.  Once a record is saved, the index read from the CSV file holds
    its name, as long as the name reads back from its cell as it is. *)
Theorem saved_name_is_indexed (profile_data : ProfileData) (name : string)
    (fs : files) :
  dict_get profile_data "name" = Some (VStr name) ->
  csv_read_back (csv_value (VStr name)) = name ->
  in_existing name
    (read_existing_profiles (save_profile_data profile_data fs)) = true.
Proof.
  intros Hname Hback. unfold read_existing_profiles, save_profile_data.
  cbn [persons_profiles_csv]. rewrite map_app, in_existing_app.
  cbn [map]. rewrite row_get_map, Hname. cbn [option_map].
  rewrite Hback. unfold in_existing. cbn [existsb].
  now rewrite String.eqb_refl, orb_true_r.
Qed.


(** ** Identifiers cut from links *)

Lemma append_assoc (s t u : string) :
  ((s ++ t) ++ u = s ++ (t ++ u))%string.
Proof.
  induction s as [| a s IH]; [reflexivity |].
  cbn [append]. now rewrite IH.
Qed.

Lemma join_snoc (sep : string) (l : list string) (x : string) :
  join sep (l ++ [x])
  = match l with
    | [] => x
    | _ => (join sep l ++ sep ++ x)%string
    end.
Proof.
  induction l as [| s l IH]; [reflexivity |].
  destruct l as [| s' l]; [reflexivity |].
  change (join sep ((s :: s' :: l) ++ [x]))
    with (s ++ sep ++ join sep ((s' :: l) ++ [x]))%string.
  rewrite IH.
  change (join sep (s :: s' :: l)) with (s ++ sep ++ join sep (s' :: l))%string.
  now rewrite !append_assoc.
Qed.

Lemma has_char_last (c : ascii) (l : list string) :
  Forall (fun part => has_char c part = false) l ->
  has_char c (last l "") = false.
Proof.
  induction 1 as [| s l Hs Hl IH]; [reflexivity |].
  destruct l; [exact Hs | exact IH].
Qed.

(** The last part of a text split at [sep] is what follows the last [sep],
    and the whole text when there is none. *)
Lemma trailing_segment (sep : ascii) (s : string) :
  exists before,
    s = (before ++ last_part (split_on sep s))%string
    /\ has_char sep (last_part (split_on sep s)) = false
    /\ (before = "" \/ exists p, before = (p ++ String sep "")%string).
Proof.
  unfold last_part.
  pose proof (split_on_not_nil sep s) as Hne.
  pose proof (join_split_on sep s) as Hjoin.
  pose proof (split_on_parts sep s) as Hparts.
  set (l := split_on sep s) in *.
  rewrite (app_removelast_last "" Hne) in Hjoin.
  rewrite join_snoc in Hjoin.
  destruct (removelast l) as [| a init] eqn:E.
  - exists "". split; [now rewrite <- Hjoin |].
    split; [now apply has_char_last | now left].
  - exists (join (String sep "") (a :: init) ++ String sep "")%string.
    split; [| split].
    + rewrite <- Hjoin at 1. now rewrite !append_assoc.
    + now apply has_char_last.
    + right. eauto.
Qed.

(** X22.  The id of a document is what follows the last slash of its link,
    and the whole link when it has no slash: it holds no slash itself. *)
Theorem document_id_is_trailing_segment (entry : doc_entry) (doc : dict)
    (title link : string) :
  doc_title entry = Some (title, Some link) ->
  String.eqb link "N/A" = false ->
  document_of entry = Ok doc ->
  exists before id,
    dict_get doc "id" = Some (VStr id)
    /\ dict_get doc "link" = Some (VStr link)
    /\ link = (before ++ id)%string
    /\ has_char slash id = false
    /\ (before = "" \/ exists p, before = (p ++ "/")%string).
Proof.
  intros Ht Hna H. unfold document_of in H. rewrite Ht, Hna in H.
  cbn [negb] in H. injection H as <-.
  destruct (trailing_segment slash link) as (before & H1 & H2 & H3).
  exists before, (last_part (split_on slash link)).
  split; [reflexivity |]. split; [reflexivity |]. auto.
Qed.

Lemma substring_all (s : string) :
  forall m, (length s <= m)%nat -> substring 0 m s = s.
Proof.
  induction s as [| a s IH]; intros [| m] H; cbn [substring length] in *;
    try reflexivity; try lia.
  rewrite IH by lia. reflexivity.
Qed.

Lemma substring_split (s : string) :
  forall k, (k <= length s)%nat ->
            s = (substring 0 k s ++ substring k (length s - k) s)%string.
Proof.
  induction s as [| a s IH]; intros [| k] H; cbn [length] in *;
    try lia; try reflexivity.
  - cbn [substring append Nat.sub]. now rewrite substring_all.
  - cbn [substring append Nat.sub]. now rewrite <- IH by lia.
Qed.

Lemma substring_length_bound (s : string) :
  forall n m, (length (substring n m s) <= m)%nat.
Proof.
  induction s as [| a s IH]; intros n m.
  - destruct n, m; cbn; lia.
  - destruct n as [| n]; destruct m as [| m]; cbn [substring length];
      try lia; try apply IH.
    specialize (IH 0%nat m). lia.
Qed.

Lemma last_chars_suffix (n : nat) (s : string) :
  exists before, s = (before ++ last_chars n s)%string.
Proof.
  unfold last_chars. destruct (le_lt_dec n (length s)) as [H | H].
  - exists (substring 0 (length s - n) s).
    rewrite (substring_split s (length s - n)) at 1 by lia.
    do 2 f_equal. lia.
  - exists "". replace (length s - n)%nat with 0%nat by lia.
    rewrite substring_all by lia. reflexivity.
Qed.

(** X23.  The person identifier is cut from the end of the profile URL: it
    is the last characters of the URL, at most 6 of them, and holds no
    slash. *)
Theorem upi_is_end_of_url (name : string) (ui : basic_ui) :
  exists before upi,
    dict_get (_extract_basic_info name ui) "upi" = Some (VStr upi)
    /\ dict_get (_extract_basic_info name ui) "url" = Some (VStr (page_url ui))
    /\ page_url ui = (before ++ upi)%string
    /\ (length upi <= 6)%nat
    /\ has_char slash upi = false.
Proof.
  destruct (trailing_segment slash (page_url ui)) as (b1 & H1 & H2 & _).
  destruct (last_chars_suffix 6 (last_part (split_on slash (page_url ui))))
    as (b2 & H3).
  exists (b1 ++ b2)%string,
         (last_chars 6 (last_part (split_on slash (page_url ui)))).
  split; [reflexivity |]. split; [reflexivity |]. split; [| split].
  - rewrite append_assoc, <- H3. exact H1.
  - apply substring_length_bound.
  - now apply has_char_substring.
Qed.


(** ** What the section extractors raise *)

(** X24.  The pre-bank and the formal-education extractors do not catch
    anything: with the tab on the page they raise exactly what the click on
    the tab, the wait for the network (formal education only) or the
    expansion of the list raises, and they return otherwise. *)
Theorem tabbed_sections_propagate_failures :
  (forall ui,
      match _extract_pre_bank_experience ui with
      | Ok _ =>
          pre_bank_tab_count ui = 0%nat
          \/ (ok (pre_bank_tab_click ui) = true
              /\ ok (_click_see_all_and_wait_for_content (pre_bank_view_all ui))
                 = true)
      | Raise e =>
          pre_bank_tab_count ui <> 0%nat
          /\ (pre_bank_tab_click ui = Raise e
              \/ _click_see_all_and_wait_for_content (pre_bank_view_all ui)
                 = Raise e)
      end)
  /\ (forall ui,
         match _extract_formal_education ui with
         | Ok _ =>
             education_tab_count ui = 0%nat
             \/ (ok (education_tab_click ui) = true
                 /\ ok (education_networkidle ui) = true
                 /\ ok (_click_see_all_and_wait_for_content
                          (education_view_all ui)) = true)
         | Raise e =>
             education_tab_count ui <> 0%nat
             /\ (education_tab_click ui = Raise e
                 \/ education_networkidle ui = Raise e
                 \/ _click_see_all_and_wait_for_content (education_view_all ui)
                    = Raise e)
         end).
Proof.
  split; intros ui.
  - unfold _extract_pre_bank_experience.
    destruct (pre_bank_tab_count ui =? 0)%nat eqn:E.
    + left. now apply Nat.eqb_eq.
    + apply Nat.eqb_neq in E.
      destruct (pre_bank_tab_click ui); cbn [bind]; [| auto].
      destruct (_click_see_all_and_wait_for_content (pre_bank_view_all ui));
        cbn [bind]; auto.
  - unfold _extract_formal_education.
    destruct (education_tab_count ui =? 0)%nat eqn:E.
    + left. now apply Nat.eqb_eq.
    + apply Nat.eqb_neq in E.
      destruct (education_tab_click ui); cbn [bind]; [| auto].
      destruct (education_networkidle ui); cbn [bind]; [| auto].
      destruct (_click_see_all_and_wait_for_content (education_view_all ui));
        cbn [bind]; auto.
Qed.



(** ** Items of the documents list

    The items of the two tabbed lists are settled above, with
    [pre_bank_entries_complete] and [education_entries_complete]. *)




(** ** Languages *)

Definition language_named (lang : language_elem) : bool :=
  match lang_name lang with
  | Some _ => true
  | None => false
  end.

Definition language_dict (lang : language_elem) : pyval :=
  VDict [ ("language", VStr (strip (text_or "" (lang_name lang))));
          ("level", VStr (strip (text_or "N/A" (lang_level lang)))) ].

(** X26.  The languages of a profile are the rows of the languages section
    that have a name element, in page order, each with its stripped name
    and its stripped level, the level being N/A where the row has no level
    element; without the section the list is empty. *)
Theorem languages_named_rows_only (ui : expertise_ui) :
  dict_get (_extract_expertise_and_skills ui) "languages"
  = Some (VList (match languages_section ui with
                 | Some langs => map language_dict (filter language_named langs)
                 | None => []
                 end)).
Proof.
  unfold _extract_expertise_and_skills.
  cbn [dict_get String.eqb Ascii.eqb Bool.eqb].
  destruct (languages_section ui) as [langs |]; [| reflexivity].
  do 2 f_equal.
  induction langs as [| lang langs IH]; [reflexivity |].
  cbn [flat_map filter]. rewrite IH.
  unfold language_entry, language_named, language_dict.
  destruct (lang_name lang) eqn:E.
  - cbn [map app]. unfold language_dict. now rewrite E.
  - reflexivity.
Qed.

End Model.

(** * Concrete runs

    The parameters of the model are fixed here to run it: the characters
    below 256 with Python's classes, the dates as the page prints them, a
    CSV layer that escapes and reads back as the [csv] module does. *)

(** The characters below 256 for which [str.isdigit] holds: the ASCII
    digits and the superscripts one, two and three. *)
Definition latin1_isdigit (c : ascii) : bool :=
  let n := nat_of_ascii c in
  ((48 <=? n) && (n <=? 57) || (n =? 178) || (n =? 179) || (n =? 185))%nat.

(** The characters below 256 that [str.strip] removes. *)
Definition latin1_isspace (c : ascii) : bool :=
  let n := nat_of_ascii c in
  ((9 <=? n) && (n <=? 13) || (28 <=? n) && (n <=? 32)
   || (n =? 133) || (n =? 160))%nat.

Definition month_of (s : string) : option Z :=
  if String.eqb s "Jan" then Some 1 else if String.eqb s "Feb" then Some 2
  else if String.eqb s "Mar" then Some 3 else if String.eqb s "Apr" then Some 4
  else if String.eqb s "May" then Some 5 else if String.eqb s "Jun" then Some 6
  else if String.eqb s "Jul" then Some 7 else if String.eqb s "Aug" then Some 8
  else if String.eqb s "Sep" then Some 9 else if String.eqb s "Oct" then Some 10
  else if String.eqb s "Nov" then Some 11 else if String.eqb s "Dec" then Some 12
  else None.

Fixpoint decimal (acc : Z) (s : string) : option Z :=
  match s with
  | EmptyString => Some acc
  | String c s' =>
      let n := nat_of_ascii c in
      if ((48 <=? n) && (n <=? 57))%nat
      then decimal (10 * acc + Z.of_nat (n - 48)) s'
      else None
  end.

Definition is_leap (y : Z) : bool :=
  (y mod 4 =? 0) && (negb (y mod 100 =? 0) || (y mod 400 =? 0)).

Definition days_in_month (y m : Z) : Z :=
  if m =? 2 then (if is_leap y then 29 else 28)
  else if (m =? 4) || (m =? 6) || (m =? 9) || (m =? 11) then 30
  else 31.

Definition days_before_month (y m : Z) : Z :=
  nth (Z.to_nat (m - 1)) [0; 31; 59; 90; 120; 151; 181; 212; 243; 273; 304; 334] 0
  + (if (2 <? m) && is_leap y then 1 else 0).

(** [date(y, m, d).toordinal()] *)
Definition ordinal (y m d : Z) : Z :=
  let y1 := y - 1 in
  y1 * 365 + y1 / 4 - y1 / 100 + y1 / 400 + days_before_month y m + d.

(** The [datetime] at the given time of the given day. *)
Definition datetime_of (y m d : Z) (microsecond_of_day : Z) : datetime :=
  (ordinal y m d - 1) * microseconds_per_day + microsecond_of_day.

(** [datetime.strptime(s, "%b %d, %Y")] in the C locale, for texts of the
    shape [Jul 01, 2016]; Python also takes other letter cases and wider
    spaces, which the pages below do not use. *)
Definition c_strptime (s : string) : option datetime :=
  match split_on " "%char s with
  | [mon; day; year] =>
      match month_of mon, string_rev day with
      | Some m, String ","%char yad =>
          match decimal 0 (string_rev yad), decimal 0 year with
          | Some d, Some y =>
              if (length year =? 4)%nat && (1 <=? y) && (1 <=? d)
                 && (d <=? days_in_month y m)
                 && (length yad <=? 2)%nat && (1 <=? length yad)%nat
              then Some (datetime_of y m d 0)
              else None
          | _, _ => None
          end
      | _, _ => None
      end
  | _ => None
  end.

(** A printer that prints nothing: no run below looks at the text of a
    value that is not a string. *)
Definition no_repr (v : pyval) : string := "".

(** The backslash, the escape character of the CSV writer. *)
Definition backslash : ascii := ascii_of_nat 92.

(** What [csv.DictReader] with its default dialect reads back from a cell
    that the [DictWriter] of [save_profile_data] wrote for the value
    [cell] (data_processing.py 22 and 61).  The writer, with [QUOTE_ALL]
    and the backslash as escape character, doubles every quote of the
    value and puts a backslash before every backslash; the reader takes
    two quotes as one and a backslash as any other character.  A value
    comes back with each of its backslashes twice, and as it is
    otherwise. *)
Fixpoint csv_faithful (cell : string) : string :=
  match cell with
  | EmptyString => EmptyString
  | String c rest =>
      if Ascii.eqb c backslash
      then String c (String c (csv_faithful rest))
      else String c (csv_faithful rest)
  end.

(** ** Reading a name back *)



(** 15 August 2024, 10:30, at every reading. *)
Definition sample_now : nat -> datetime :=
  fun _ => datetime_of 2024 8 15 37800000000.

Definition sample_experience : list experience :=
  [ mkExperience (Some " Mar 04, 2021 ") (Some "Senior Economist")
                 (Some "FCI Global Unit");
    mkExperience (Some "Jul 01, 2016") (Some "Economist")
                 (Some "Finance, Competitiveness & Innovation");
    mkExperience (Some "Sep 15, 2010") (Some "Analyst") None ].

Definition sample_dates : list datetime :=
  [ datetime_of 2021 3 4 0; datetime_of 2016 7 1 0; datetime_of 2010 9 15 0 ].

Definition no_see_all : see_all_link :=
  mkSeeAllLink 0 (Raise PlaywrightError) (Raise PlaywrightError) false.

(** A page without the pre-bank tab. *)
Definition no_pre_bank_tab : pre_bank_ui :=
  mkPreBankUi 0 (Raise TimeoutError) no_see_all [].

Definition no_education_tab : education_ui :=
  mkEducationUi 0 (Raise TimeoutError) (Raise TimeoutError) no_see_all [].

Definition no_doc_tab : documents_ui :=
  mkDocumentsUi None (Raise TimeoutError) no_see_all [].

(** A documents tab with two entries: a full one, and one whose date,
    title and description are all missing. *)
Definition two_documents : documents_ui :=
  mkDocumentsUi (Some (Ok tt)) (Ok tt) no_see_all
    [ mkDocEntry (Some " May 2, 2023 ")
                 (Some ("Credit Markets", Some "https://docs.example/en/099123"))
                 (Some "A note");
      mkDocEntry None None None ].

Definition sample_awards : list award_elem :=
  [ mkAwardElem (Some "Team Award") (Some "FCI") (Some "2021");
    mkAwardElem (Some "Spot Award") None (Some "2019");
    mkAwardElem (Some "VPU Award") (Some "EFI") (Some "2018") ].

Definition sample_item (title href : string) : project_item :=
  mkProjectItem (Ok title) (Ok (Some href)) (Some (Ok "Active")) None.

(** A listing of two pages, three items in all. *)
Definition two_pages : listing_ui :=
  mkListingUi true true (Ok tt) true 1 (Ok tt) true
    [ mkListingPage (fun n => (n =? 1)%nat)
        [ sample_item " Roads " "https://projects.example/P123456/abc";
          sample_item "Ports" "https://projects.example/view/40987/xyz" ]
        1 (Ok tt);
      mkListingPage (fun n => (n =? 2)%nat)
        [ sample_item "Grids" "https://projects.example/none" ]
        0 (Raise TimeoutError) ].

(** A listing whose heading never shows. *)
Definition no_listing : listing_ui :=
  mkListingUi false false (Raise TimeoutError) false 0 (Raise TimeoutError)
    false [].

Definition sample_projects : projects_ui :=
  mkProjectsUi 1 (Ok tt) (Ok tt)
    (fun project_type =>
       if String.eqb project_type "nonlending" then no_listing else two_pages).

Definition sample_page : profile_page :=
  {| profile_name_shown := true;
     profile_completion_visible := true;
     profile_views_visible := true;
     see_all_buttons := [(true, Ok tt)];
     basic := mkBasicUi "https://intranet.example/people/profile/000123456"
                (Some "FCI") None (Some " FCIDR ") (Some "Washington")
                (Some "Room No MC 9-123");
     bank_experience := sample_experience;
     pre_bank := no_pre_bank_tab;
     education := no_education_tab;
     documents := two_documents;
     expertise := mkExpertiseUi (Some [" Credit "]) None None;
     award_elements := sample_awards;
     profile_img := None;
     project_listings := sample_projects |}.

(** A search that shows the name it was asked for. *)
Definition found (name : string) : search_ui :=
  mkSearchUi (Ok tt) (Ok tt) (Ok ("Dr. " ++ name ++ " (FCI)")%string) (Ok tt).

Definition sample_run (name : string) : profile_run :=
  run_of_page latin1_isdigit latin1_isspace c_strptime sample_now name
              sample_page.

Definition no_files : files := mkFiles [] [] [].

(** The name column of the CSV file, as the values handed to the writer. *)
Definition name_column (fs : files) : list (option string) :=
  map (fun row => row_get row "name") (persons_profiles_csv fs).

(** The [name] entries of the JSON file. *)
Definition json_names (fs : files) : list (option pyval) :=
  map (fun d => dict_get d "name") (persons_profiles_json fs).

(** A name with a line feed in it. *)
Definition two_line_name : string := ("Ann" ++ String LF "Lee")%string.



(** The batch driver on the sample page, every name being found. *)
Definition sample_main (staff_names : list string) (fs : files)
    : files * result unit :=
  main latin1_isdigit latin1_isspace c_strptime no_repr csv_faithful
       (fun _ => sample_now) found (fun _ => sample_page) staff_names fs.

(** ** Runs of the extractors *)

Set Warnings "-inexact-float".

Example code_of_project_link :
  derive_code latin1_isdigit "lending" ".../P123456/abc" = "P123456"
  /\ derive_code latin1_isdigit "nonlending" ".../P123456/abc" = "P123456"
  /\ derive_code latin1_isdigit "ifc" ".../40987/xyz" = "40987"
  /\ derive_code latin1_isdigit "ifc" ".../4098/xyz" = ""
  /\ derive_code latin1_isdigit "lending" ".../P/Px1/abc" = ""
  /\ derive_code latin1_isdigit "lending" "a/P12/P345/b" = "P345"
  /\ derive_code latin1_isdigit "ifc" "" = "".
Proof. repeat split; vm_compute; reflexivity. Qed.

Example two_pages_collected :
  _collect_project_type_data latin1_isdigit latin1_isspace "lending" two_pages
  = mkProjectTypeData ["Roads"; "Ports"; "Grids"] ["P123456"; ""; ""]
                      ["Active"; "Active"; "Active"] ["N/A"; "N/A"; "N/A"]
  /\ _collect_project_type_data latin1_isdigit latin1_isspace "ifc" two_pages
     = mkProjectTypeData ["Roads"; "Ports"; "Grids"] [""; "40987"; ""]
                         ["Active"; "Active"; "Active"] ["N/A"; "N/A"; "N/A"]
  /\ _collect_project_type_data latin1_isdigit latin1_isspace "nonlending"
                                no_listing
     = mkProjectTypeData [] [] [] [].
Proof. repeat split; vm_compute; reflexivity. Qed.

Example rounding_to_two_decimals :
  py_round2 2.675%float = 2.67%float
  /\ py_round2 0.125%float = 0.12%float
  /\ years_between (datetime_of 2016 7 1 0) (datetime_of 2021 3 4 0)
     = 4.67%float
  /\ years_between (datetime_of 2021 3 4 0) (datetime_of 2016 7 1 0)
     = (-4.67)%float.
Proof. repeat split; vm_compute; reflexivity. Qed.

Example sample_bank_experience :
  _extract_bank_experience latin1_isspace c_strptime sample_now
                           sample_experience
  = Ok [ ("years_in_current_position", VFloat 3.45%float);
         ("years_in_fci", VFloat 8.120000000000001%float);
         ("years_in_bank", VFloat 13.92%float);
         ("last_position", VStr "Senior Economist - FCI Global Unit");
         ("all_positions",
            VStr "Mar 04, 2021: Senior Economist - FCI Global Unit; Jul 01, 2016: Economist - Finance, Competitiveness & Innovation; Sep 15, 2010: Analyst - ") ].
Proof. vm_compute. reflexivity. Qed.

Example sample_awards_summary :
  _extract_awards sample_awards
  = [ ("list_of_awards", VStr "Team Award|FCI|2021, VPU Award|EFI|2018");
      ("total_number_of_awards", VInt 2) ].
Proof. vm_compute. reflexivity. Qed.

Example sample_profile_is_complete :
  exists profile_data,
    scrape_profile (sample_run "Ann Lee") = Ok profile_data
    /\ dict_keys profile_data = profile_fields.
Proof. eexists. split; vm_compute; reflexivity. Qed.

(** ** Witnesses *)

Lemma years_in_bank_witness :
  Forall2 (starts_on latin1_isspace c_strptime) sample_experience sample_dates
  /\ sample_experience <> []
  /\ strictly_decreasing sample_dates
  /\ exists r,
       _extract_bank_experience latin1_isspace c_strptime sample_now
                                sample_experience = Ok r
       /\ dict_get r "years_in_bank" = Some (VFloat 13.92%float).
Proof.
  assert (H1 : Forall2 (starts_on latin1_isspace c_strptime)
                 sample_experience sample_dates).
  { repeat constructor; eexists; (split; [reflexivity |]);
      vm_compute; reflexivity. }
  assert (H2 : sample_experience <> []) by discriminate.
  assert (H3 : strictly_decreasing sample_dates).
  { vm_compute. repeat split; reflexivity. }
  destruct (years_in_bank_from_earliest_start latin1_isspace c_strptime
              sample_now sample_experience sample_dates H1 H2 H3)
    as (_ & _ & r & Hr & Hy).
  split; [exact H1 |]. split; [exact H2 |]. split; [exact H3 |].
  exists r. split; [exact Hr |]. rewrite Hy. vm_compute. reflexivity.
Defined.

Lemma absent_tab_witness :
  pre_bank_tab_count no_pre_bank_tab = 0%nat
  /\ education_tab_count no_education_tab = 0%nat
  /\ doc_tab no_doc_tab = None
  /\ _extract_pre_bank_experience no_pre_bank_tab
     = Ok [ ("pre_bank_experience", VList [VDict []]) ]
  /\ _extract_formal_education no_education_tab
     = Ok [ ("formal_education", VNone) ]
  /\ _extract_documents_and_reports latin1_isspace no_doc_tab
     = Ok [ ("documents_and_reports", VList []); ("document_ids", VList []) ].
Proof.
  split; [reflexivity |]. split; [reflexivity |]. split; [reflexivity |].
  apply (absent_tab_sentinels latin1_isspace no_pre_bank_tab no_education_tab
           no_doc_tab); reflexivity.
Defined.


Definition sample_documents_result : dict :=
  [ ("documents_and_reports",
       VList [ VDict [ ("id", VStr "099123"); ("date", VStr "May 2, 2023");
                       ("title", VStr "Credit Markets");
                       ("link", VStr "https://docs.example/en/099123");
                       ("description", VStr "A note") ];
               VDict [ ("id", VStr "N/A"); ("date", VStr "N/A");
                       ("title", VStr "N/A"); ("link", VStr "N/A");
                       ("description", VStr "N/A") ] ]);
    ("document_ids", VList [VStr "099123"; VStr "N/A"]) ].

Lemma document_ids_witness :
  _extract_documents_and_reports latin1_isspace two_documents
  = Ok sample_documents_result
  /\ exists docs ids,
       dict_get sample_documents_result "documents_and_reports"
       = Some (VList (map VDict docs))
       /\ dict_get sample_documents_result "document_ids" = Some (VList ids)
       /\ List.length ids = List.length docs
       /\ forall i doc,
            nth_error docs i = Some doc ->
            exists id, nth_error ids i = Some id /\ dict_get doc "id" = Some id.
Proof.
  assert (H : _extract_documents_and_reports latin1_isspace two_documents
              = Ok sample_documents_result) by (vm_compute; reflexivity).
  split; [exact H |].
  exact (document_ids_match_documents latin1_isspace two_documents
           sample_documents_result H).
Defined.

(** ** Runs that the specification does not expect *)


(** C5: with no pre-bank tab on the page the field is a list that holds
    one empty item, which is neither the empty list nor null. *)
Lemma absent_pre_bank_tab_not_empty :
  pre_bank_tab_count no_pre_bank_tab = 0%nat
  /\ exists v,
       _extract_pre_bank_experience no_pre_bank_tab
       = Ok [ ("pre_bank_experience", v) ]
       /\ v <> VList [] /\ v <> VNone.
Proof.
  split; [reflexivity |].
  exists (VList [VDict []]). repeat split; discriminate.
Qed.


(** C8: a name with a line feed is written to the name column with the
    line feed escaped, so the index of the second run does not hold the
    name; the second run searches and scrapes it again and appends a second
    record. *)
Lemma escaped_name_scraped_again :
  let once := fst (sample_main [two_line_name] no_files) in
  let twice := fst (sample_main [two_line_name] once) in
  name_column once = [Some "Ann\nLee"]
  /\ in_existing two_line_name (read_existing_profiles csv_faithful once)
     = false
  /\ json_names once = [Some (VStr two_line_name)]
  /\ json_names twice = [Some (VStr two_line_name); Some (VStr two_line_name)]
  /\ List.length (persons_profiles_csv twice) = 2%nat.
Proof. vm_compute. repeat split; reflexivity. Qed.

(** The resume of a batch whose names read back as they are. *)
Lemma resume_witness :
  let names := ["Ann Lee"; "Bob Ray"; "Ann Lee"] in
  let once := fst (sample_main names no_files) in
  let twice :=
    fst (main latin1_isdigit latin1_isspace c_strptime no_repr csv_faithful
              (fun _ _ => datetime_of 2025 1 1 0) found (fun _ => sample_page)
              names once) in
  (forall name, In name names ->
                csv_faithful (csv_value no_repr (VStr name)) = name)
  /\ persons_profiles_csv twice = persons_profiles_csv once
  /\ persons_profiles_json twice = persons_profiles_json once.
Proof.
  intros names once twice.
  assert (H : forall name, In name names ->
                csv_faithful (csv_value no_repr (VStr name)) = name).
  { intros name [<- | [<- | [<- | []]]]; vm_compute; reflexivity. }
  split; [exact H |].
  exact (resume_appends_nothing latin1_isdigit latin1_isspace c_strptime
           no_repr csv_faithful (fun _ => sample_now)
           (fun _ _ => datetime_of 2025 1 1 0) found (fun _ => sample_page)
           names no_files H).
Defined.

(** ** Witnesses of the further properties *)

(** An entry without a date, as the page shows for a pending assignment. *)
Definition undated_entry : experience :=
  mkExperience None (Some "Consultant") (Some "FCI").

Lemma listing_read_witness :
  let d := mkProjectTypeData ["Roads"; "Ports"; "Grids"] ["P123456"; ""; ""]
             ["Active"; "Active"; "Active"] ["N/A"; "N/A"; "N/A"] in
  let items := flat_map accordion (pages_read (pages two_pages)) in
  collect_project_type_body latin1_isdigit latin1_isspace "lending" two_pages
  = Ok d
  /\ _collect_project_type_data latin1_isdigit latin1_isspace "lending"
                                two_pages = d
  /\ projects d = map (item_title latin1_isspace) items
  /\ project_codes d = map (item_code latin1_isdigit "lending") items
  /\ project_statuses d = map item_status items
  /\ project_years d = map item_year items.
Proof.
  intros d items.
  assert (H : collect_project_type_body latin1_isdigit latin1_isspace
                "lending" two_pages = Ok d) by (vm_compute; reflexivity).
  split; [exact H |].
  exact (listing_read_in_page_order latin1_isdigit latin1_isspace "lending"
           two_pages d H).
Defined.

Lemma current_position_witness :
  let d := datetime_of 2021 3 4 0 in
  Forall (fun e => dated e = false) [undated_entry]
  /\ start_of latin1_isspace c_strptime
       (mkExperience (Some " Mar 04, 2021 ") (Some "Senior Economist")
                     (Some "FCI Global Unit")) = Some d
  /\ exists r,
       _extract_bank_experience latin1_isspace c_strptime sample_now
                                (undated_entry :: sample_experience) = Ok r
       /\ dict_get r "years_in_current_position"
          = Some (VFloat (years_between d (sample_now 1%nat)))
       /\ dict_get r "last_position"
          = Some (VStr "Senior Economist - FCI Global Unit").
Proof.
  intros d.
  assert (H1 : Forall (fun e => dated e = false) [undated_entry])
    by (repeat constructor).
  assert (H2 : start_of latin1_isspace c_strptime
                 (mkExperience (Some " Mar 04, 2021 ")
                    (Some "Senior Economist") (Some "FCI Global Unit"))
               = Some d) by (vm_compute; reflexivity).
  split; [exact H1 |]. split; [exact H2 |].
  destruct (_extract_bank_experience latin1_isspace c_strptime sample_now
              (undated_entry :: sample_experience)) as [r | e] eqn:E;
    [| vm_compute in E; discriminate E].
  exists r. split; [reflexivity |].
  exact (current_position_is_first_dated_entry latin1_isspace c_strptime
           sample_now [undated_entry] _ _ d r H1 H2 E).
Defined.

Lemma no_dated_entry_witness :
  Forall (fun e => dated e = false) [undated_entry; undated_entry]
  /\ _extract_bank_experience latin1_isspace c_strptime sample_now
                              [undated_entry; undated_entry]
     = Ok [ ("years_in_current_position", VInt 0);
            ("years_in_fci", VFloat 0%float);
            ("years_in_bank", VInt 0);
            ("last_position", VStr "");
            ("all_positions", VStr "") ].
Proof.
  assert (H : Forall (fun e => dated e = false) [undated_entry; undated_entry])
    by (repeat constructor).
  split; [exact H |].
  exact (no_dated_entry_gives_zeros latin1_isspace c_strptime sample_now
           [undated_entry; undated_entry] H).
Defined.

Lemma all_positions_witness :
  exists r,
    _extract_bank_experience latin1_isspace c_strptime sample_now
                             (undated_entry :: sample_experience) = Ok r
    /\ dict_get r "all_positions"
       = Some (VStr (join "; " (map (position_line latin1_isspace)
                                    (filter dated
                                       (undated_entry :: sample_experience))))).
Proof.
  destruct (_extract_bank_experience latin1_isspace c_strptime sample_now
              (undated_entry :: sample_experience)) as [r | e] eqn:E;
    [| vm_compute in E; discriminate E].
  exists r. split; [reflexivity |].
  exact (all_positions_in_page_order latin1_isspace c_strptime sample_now
           (undated_entry :: sample_experience) r E).
Defined.

Lemma years_in_fci_witness :
  Forall2 (starts_on latin1_isspace c_strptime) sample_experience sample_dates
  /\ exists r,
       _extract_bank_experience latin1_isspace c_strptime sample_now
                                sample_experience = Ok r
       /\ dict_get r "years_in_fci"
          = Some (VFloat (fci_years (sample_now 0%nat) sample_dates
                                    sample_experience)).
Proof.
  assert (H : Forall2 (starts_on latin1_isspace c_strptime)
                sample_experience sample_dates).
  { repeat constructor; eexists; (split; [reflexivity |]);
      vm_compute; reflexivity. }
  split; [exact H |].
  exact (years_in_fci_between_consecutive_starts latin1_isspace c_strptime
           sample_now sample_experience sample_dates H).
Defined.

(** Two positions outside the FCI units. *)
Definition other_units : list experience :=
  [ mkExperience (Some "Mar 04, 2021") (Some "Economist") (Some "EFI");
    mkExperience (Some "Sep 15, 2010") (Some "Analyst") None ].

Lemma no_fci_unit_witness :
  Forall (fun exp => is_fci (text_or "" (sf_units exp)) = false) other_units
  /\ exists r,
       _extract_bank_experience latin1_isspace c_strptime sample_now
                                other_units = Ok r
       /\ dict_get r "years_in_fci" = Some (VFloat 0%float).
Proof.
  assert (H : Forall (fun exp => is_fci (text_or "" (sf_units exp)) = false)
                other_units) by (repeat constructor).
  split; [exact H |].
  destruct (_extract_bank_experience latin1_isspace c_strptime sample_now
              other_units) as [r | e] eqn:E;
    [| vm_compute in E; discriminate E].
  exists r. split; [reflexivity |].
  exact (no_fci_unit_no_fci_years latin1_isspace c_strptime sample_now
           other_units r H E).
Defined.

Lemma less_than_a_day_witness :
  (datetime_of 2024 8 15 0 <= sample_now 0%nat
   < datetime_of 2024 8 15 0 + microseconds_per_day)%Z
  /\ years_between (datetime_of 2024 8 15 0) (sample_now 0%nat) = 0%float.
Proof.
  assert (H : (datetime_of 2024 8 15 0 <= sample_now 0%nat
               < datetime_of 2024 8 15 0 + microseconds_per_day)%Z).
  { vm_compute. split; [discriminate | reflexivity]. }
  split; [exact H |].
  exact (less_than_a_day_is_zero_years _ _ H).
Defined.

Lemma returned_record_witness :
  exists profile_data,
    scrape_profile (sample_run "Ann Lee") = Ok profile_data
    /\ dict_keys profile_data = profile_fields.
Proof.
  destruct (scrape_profile (sample_run "Ann Lee")) as [profile_data | e] eqn:E;
    [| vm_compute in E; discriminate E].
  exists profile_data. split; [reflexivity |].
  exact (returned_record_has_declared_fields (sample_run "Ann Lee")
           profile_data E).
Defined.

Lemma csv_value_plain_witness :
  has_char LF "Ann Lee" = false
  /\ has_char CR "Ann Lee" = false
  /\ (Z.of_nat (length "Ann Lee") <= 32000)%Z
  /\ csv_value no_repr (VStr "Ann Lee") = "Ann Lee".
Proof.
  assert (H1 : has_char LF "Ann Lee" = false) by reflexivity.
  assert (H2 : has_char CR "Ann Lee" = false) by reflexivity.
  assert (H3 : (Z.of_nat (length "Ann Lee") <= 32000)%Z)
    by (vm_compute; discriminate).
  split; [exact H1 |]. split; [exact H2 |]. split; [exact H3 |].
  exact (csv_value_of_plain_text no_repr "Ann Lee" H1 H2 H3).
Defined.

Lemma saved_name_witness :
  let profile_data :=
    _extract_basic_info latin1_isspace "Ann Lee" (basic sample_page) in
  dict_get profile_data "name" = Some (VStr "Ann Lee")
  /\ csv_faithful (csv_value no_repr (VStr "Ann Lee")) = "Ann Lee"
  /\ in_existing "Ann Lee"
       (read_existing_profiles csv_faithful
          (save_profile_data no_repr profile_data no_files)) = true.
Proof.
  intros profile_data.
  assert (H1 : dict_get profile_data "name" = Some (VStr "Ann Lee"))
    by reflexivity.
  assert (H2 : csv_faithful (csv_value no_repr (VStr "Ann Lee")) = "Ann Lee")
    by (vm_compute; reflexivity).
  split; [exact H1 |]. split; [exact H2 |].
  exact (saved_name_is_indexed no_repr csv_faithful profile_data "Ann Lee"
           no_files H1 H2).
Defined.

Definition full_entry : doc_entry :=
  mkDocEntry (Some " May 2, 2023 ")
             (Some ("Credit Markets", Some "https://docs.example/en/099123"))
             (Some "A note").

Lemma document_id_witness :
  let link := "https://docs.example/en/099123" in
  doc_title full_entry = Some ("Credit Markets", Some link)
  /\ String.eqb link "N/A" = false
  /\ exists doc,
       document_of latin1_isspace full_entry = Ok doc
       /\ exists before id,
            dict_get doc "id" = Some (VStr id)
            /\ dict_get doc "link" = Some (VStr link)
            /\ link = (before ++ id)%string
            /\ has_char slash id = false
            /\ (before = "" \/ exists p, before = (p ++ "/")%string).
Proof.
  intros link.
  assert (H1 : doc_title full_entry = Some ("Credit Markets", Some link))
    by reflexivity.
  assert (H2 : String.eqb link "N/A" = false) by reflexivity.
  split; [exact H1 |]. split; [exact H2 |].
  destruct (document_of latin1_isspace full_entry) as [doc | e] eqn:E;
    [| vm_compute in E; discriminate E].
  exists doc. split; [reflexivity |].
  exact (document_id_is_trailing_segment latin1_isspace full_entry doc
           "Credit Markets" link H1 H2 E).
Defined.

(** A search that fails at its first step. *)
Definition broken_search : search_ui :=
  mkSearchUi (Raise TimeoutError) (Raise TimeoutError) (Raise TimeoutError)
             (Raise TimeoutError).

Lemma existing_name_witness :
  let site' := fun name : string =>
                 if String.eqb name "Ann Lee" then broken_search
                 else found name in
  in_existing "Ann Lee" [Some "Ann Lee"] = true
  /\ batch no_repr (fun _ => sample_run) found [Some "Ann Lee"] 0
           ["Ann Lee"; "Bob Ray"] no_files
     = batch no_repr (fun _ => sample_run) site' [Some "Ann Lee"] 1
             ["Bob Ray"] no_files.
Proof.
  intros site'.
  assert (H : in_existing "Ann Lee" [Some "Ann Lee"] = true) by reflexivity.
  split; [exact H |].
  refine (existing_name_skipped no_repr (fun _ => sample_run)
            (fun _ => sample_run) found site' [Some "Ann Lee"] 0%nat
            "Ann Lee" ["Bob Ray"] no_files H (fun _ _ _ => eq_refl) _).
  intros n [<- | []]. reflexivity.
Defined.

